(** * The Garden Linux operating-system-config actuator

    A shallow embedding of
    [pkg/controller/operatingsystemconfig/actuator.go] and the properties of
    its entry points: the purpose dispatch, the provisioning script and its
    MIME envelope for the memory variant, and the artifacts built for an
    already running machine.

    Go strings and byte slices are [string]s (sequences of bytes), a nil
    slice is the empty list, a nil pointer is [None], and a Go call that
    returns [(value, error)] returns a pair whose second component is
    [None] for a nil error. *)

From Stdlib Require Import String Ascii List Bool NArith Arith Lia.
Import ListNotations.
Open Scope string_scope.

Set Implicit Arguments.

(** ** Text helpers *)

Module Text.

(** The line feed that ends every line of the generated scripts. *)
Definition LF : string := String "010"%char "".

(** The double quote character, as a one-byte string. *)
Definition DQ : string := String "034"%char "".

(** Go [strings.HasPrefix s p]. *)
Fixpoint hasPrefix (p s : string) : bool :=
  match p, s with
  | EmptyString, _ => true
  | String _ _, EmptyString => false
  | String a p', String b s' => Ascii.eqb a b && hasPrefix p' s'
  end.

(** Go [strings.Contains s m]. *)
Fixpoint contains (m s : string) : bool :=
  hasPrefix m s ||
  match s with
  | EmptyString => false
  | String _ s' => contains m s'
  end.

(** The byte [c] occurs in [s]. *)
Fixpoint occurs (c : ascii) (s : string) : bool :=
  match s with
  | EmptyString => false
  | String b s' => Ascii.eqb c b || occurs c s'
  end.

(** The lines of a text: the pieces between its line feeds (Go
    [strings.Split s "\n"]).  A text always has at least one line. *)
Fixpoint lines (s : string) : list string :=
  match s with
  | EmptyString => [""]
  | String c s' =>
      if Ascii.eqb c "010"%char then "" :: lines s'
      else match lines s' with
           | [] => [String c ""]
           | l :: ls => String c l :: ls
           end
  end.

(** The lines of [s] that begin with the key [p]. *)
Definition linesWith (p s : string) : list string :=
  filter (hasPrefix p) (lines s).

(** The text of a list of pieces, one after the other. *)
Fixpoint cat (l : list string) : string :=
  match l with
  | [] => ""
  | s :: l' => s ++ cat l'
  end.

End Text.
Import Text.

(** ** Data model: the extensions/v1alpha1 API types the actuator touches *)

Definition error := string.

Record FileContentInline := {
  Encoding : string;
  Data : string
}.

Record FileContentSecretRef := {
  SecretName : string;
  DataKey : string
}.

Record FileContent := {
  SecretRef : option FileContentSecretRef;
  Inline : option FileContentInline
}.

Record File := {
  Path : string;
  Permissions : option N;
  Content : FileContent
}.

Record DropIn := {
  DropInName : string;
  DropInContent : string
}.

Record Unit := {
  Name : string;
  Command : option string;
  Enable : option bool;
  UnitContent : option string;
  DropIns : list DropIn;
  FilePaths : list string
}.

Record InPlaceUpdateConfig := {
  OSUpdateCommand : option string;
  OSUpdateCommandArgs : list string
}.

Record OperatingSystemConfigSpec := {
  OSType : string;
  ProviderConfig : option string;
  Purpose : string;
  Units : list Unit;
  Files : list File;
  OSVersion : option string
}.

Record OperatingSystemConfig := {
  Namespace : string;
  Spec : OperatingSystemConfigSpec
}.

(** The two purposes of the extensions API
    ([OperatingSystemConfigPurposeProvision] and
    [OperatingSystemConfigPurposeReconcile]); the purpose type is a string
    type, so a request can carry any other value. *)
Definition OperatingSystemConfigPurposeProvision : string := "provision".
Definition OperatingSystemConfigPurposeReconcile : string := "reconcile".

(** The decoded provider configuration of the memory variant
    ([memoryone.Configuration] returns a pointer to it). *)
Record MemoryOneConfiguration := {
  MemoryTopology : option string;
  SystemMemory : option string
}.

(** Go [ptr.Deref p def]. *)
Definition Deref (A : Type) (p : option A) (def : A) : A :=
  match p with
  | Some v => v
  | None => def
  end.

(** ** What the actuator imports

    The code the actuator calls but that lives outside the two source files:
    the gardener renderers, [filepath.Join], the [memoryone] package and the
    constants of the [gardenlinux] package.  Every theorem below holds
    whatever these are. *)

Record Imports (Client : Type) := {
  (** [operatingsystemconfig.FilesToDiskScript ctx client namespace files] *)
  FilesToDiskScript : Client -> string -> list File -> string * option error;
  (** [operatingsystemconfig.UnitsToDiskScript units] *)
  UnitsToDiskScript : list Unit -> string;
  (** [filepath.Join dir name] *)
  Join : string -> string -> string;
  (** [memoryone.OSTypeMemoryOneGardenLinux] *)
  OSTypeMemoryOneGardenLinux : string;
  (** [memoryone.Configuration osc] *)
  Configuration : OperatingSystemConfig -> option MemoryOneConfiguration * option error;
  (** [gardenlinux.ScriptLocation] *)
  ScriptLocation : string;
  (** [gardenlinux.ScriptPermissions] *)
  ScriptPermissions : N;
  (** [gardenlinux.Templates.ReadFile name], the embedded asset set *)
  ReadFile : string -> string * option error
}.

(** The package-level variables that [init] fills. *)
Record Scripts := {
  scriptContentInPlaceUpdate : string;
  scriptContentGFunctions : string;
  scriptContentKubeletCGroupDriver : string;
  scriptContentContainerdCGroupDriver : string
}.

(** The five values [Reconcile] and [Restore] return. *)
Record Outcome := {
  userData : string;
  extensionUnits : list Unit;
  extensionFiles : list File;
  inPlaceUpdateConfig : option InPlaceUpdateConfig;
  err : option error
}.

(** ** The actuator *)

Section Actuator.

Variable Client : Type.
Variable E : Imports Client.

Record actuator := {
  client : Client
}.

(** [init]: the four assets are read in turn; [utilruntime.Must] panics on
    the first read error, which is [None] here. *)
Definition Must (A : Type) (r : string * option error) (k : string -> option A) : option A :=
  match snd r with
  | Some _ => None
  | None => k (fst r)
  end.

Definition init : option Scripts :=
  Must (ReadFile E (Join E "scripts" "inplace-update.sh")) (fun s1 =>
  Must (ReadFile E (Join E "scripts" "g_functions.sh")) (fun s2 =>
  Must (ReadFile E (Join E "scripts" "kubelet_cgroup_driver.sh")) (fun s3 =>
  Must (ReadFile E (Join E "scripts" "containerd_cgroup_driver.sh")) (fun s4 =>
  Some {| scriptContentInPlaceUpdate := s1;
          scriptContentGFunctions := s2;
          scriptContentKubeletCGroupDriver := s3;
          scriptContentContainerdCGroupDriver := s4 |})))).

Variable G : Scripts.

(** *** Provisioning *)

(** The script literal of [handleProvisionOSC] with the two rendered
    fragments spliced in. *)
Definition scriptHead (writeFilesToDiskScript writeUnitsToDiskScript : string) : string :=
  "#!/bin/bash" ++ LF ++
  "if [ ! -s /etc/containerd/config.toml ]; then" ++ LF ++
  "  mkdir -p /etc/containerd/" ++ LF ++
  "  containerd config default > /etc/containerd/config.toml" ++ LF ++
  "  chmod 0644 /etc/containerd/config.toml" ++ LF ++
  "fi" ++ LF ++
  "" ++ LF ++
  "mkdir -p /etc/systemd/system/containerd.service.d" ++ LF ++
  "cat <<EOF > /etc/systemd/system/containerd.service.d/11-exec_config.conf" ++ LF ++
  "[Service]" ++ LF ++
  "ExecStart=" ++ LF ++
  "ExecStart=/usr/bin/containerd --config=/etc/containerd/config.toml" ++ LF ++
  "EOF" ++ LF ++
  "chmod 0644 /etc/systemd/system/containerd.service.d/11-exec_config.conf" ++ LF ++
  writeFilesToDiskScript ++ LF ++
  writeUnitsToDiskScript ++ LF ++
  "grep -sq " ++ DQ ++ "^nfsd$" ++ DQ ++ " /etc/modules || echo " ++ DQ ++ "nfsd" ++ DQ ++ " >>/etc/modules" ++ LF ++
  "modprobe nfsd" ++ LF ++
  "nslookup $(hostname) || systemctl restart systemd-networkd" ++ LF ++
  "" ++ LF ++
  "systemctl daemon-reload" ++ LF ++
  "systemctl enable containerd && systemctl restart containerd" ++ LF ++
  "systemctl enable docker && systemctl restart docker" ++ LF.

(** [fmt.Sprintf] of the enable-and-restart format with the unit name for
    both verbs. *)
Definition enableRestart (name : string) : string :=
  "systemctl enable '" ++ name ++ "' && systemctl restart --no-block '" ++ name ++ "'" ++ LF.

(** The [script] variable once the loop over the units is done. *)
Definition composeScript (writeFilesToDiskScript writeUnitsToDiskScript : string)
    (units : list Unit) : string :=
  fold_left (fun script unit => script ++ enableRestart (Name unit))
            units
            (scriptHead writeFilesToDiskScript writeUnitsToDiskScript).

(** The fixed boundary line of the MIME envelope. *)
Definition boundary : string := "--==BOUNDARY==".

(** The first line of the envelope. *)
Definition envelopeFirstLine : string :=
  "Content-Type: multipart/mixed; boundary=" ++ DQ ++ "==BOUNDARY==" ++ DQ.

Definition wrapIntoMemoryOneHeaderAndFooter (osc : OperatingSystemConfig) (input : string)
    : string * option error :=
  let (config, err) := Configuration E osc in
  match err with
  | Some e => ("", Some e)
  | None =>
      let out :=
        envelopeFirstLine ++ LF ++
        "MIME-Version: 1.0" ++ LF ++
        "--==BOUNDARY==" ++ LF ++
        "Content-Type: text/x-vsmp; section=vsmp" in
      let out :=
        match config with
        | Some c =>
            match SystemMemory c with
            | Some v => out ++ (LF ++ "system_memory=" ++ v)
            | None => out
            end
        | None => out
        end in
      let out :=
        match config with
        | Some c =>
            match MemoryTopology c with
            | Some v => out ++ (LF ++ "mem_topology=" ++ v)
            | None => out
            end
        | None => out
        end in
      let out :=
        out ++ (LF ++
        "--==BOUNDARY==" ++ LF ++
        "Content-Type: text/x-shellscript" ++ LF ++
        input ++ LF ++
        "--==BOUNDARY==") in
      (out, None)
  end.

Definition handleProvisionOSC (a : actuator) (osc : OperatingSystemConfig)
    : string * option error :=
  let (writeFilesToDiskScript, err) :=
    FilesToDiskScript E (client a) (Namespace osc) (Files (Spec osc)) in
  match err with
  | Some e => ("", Some e)
  | None =>
      let writeUnitsToDiskScript := UnitsToDiskScript E (Units (Spec osc)) in
      let script :=
        composeScript writeFilesToDiskScript writeUnitsToDiskScript (Units (Spec osc)) in
      if String.eqb (OSType (Spec osc)) (OSTypeMemoryOneGardenLinux E)
      then wrapIntoMemoryOneHeaderAndFooter osc script
      else (script, None)
  end.

(** *** Artifacts for a running machine *)

Definition inlineFile (path data : string) : File :=
  {| Path := path;
     Content := {| SecretRef := None;
                   Inline := Some {| Encoding := ""; Data := data |} |};
     Permissions := Some (ScriptPermissions E) |}.

Definition cgroupDriverDropIn (script : string) : DropIn :=
  {| DropInName := "10-configure-cgroup-driver.conf";
     DropInContent := "[Service]" ++ LF ++ "ExecStartPre=" ++ script ++ LF |}.

Definition handleReconcileOSC (a : actuator) (osConfig : OperatingSystemConfig)
    : list Unit * list File * option InPlaceUpdateConfig * option error :=
  let extensionUnits : list Unit := [] in
  let extensionFiles : list File := [] in
  let filePathOSUpdateScript := Join E (ScriptLocation E) "inplace-update.sh" in
  let extensionFiles :=
    (extensionFiles ++
     [inlineFile filePathOSUpdateScript (scriptContentInPlaceUpdate G)])%list in
  let inPlaceUpdateConfig :=
    {| OSUpdateCommand := Some filePathOSUpdateScript;
       OSUpdateCommandArgs := [Deref (OSVersion (Spec osConfig)) ""] |} in
  let filePathFunctionsHelperScript := Join E (ScriptLocation E) "g_functions.sh" in
  let extensionFiles :=
    (extensionFiles ++
     [inlineFile filePathFunctionsHelperScript (scriptContentGFunctions G)])%list in
  let filePathKubeletCGroupDriverScript :=
    Join E (ScriptLocation E) "kubelet_cgroup_driver.sh" in
  let extensionFiles :=
    (extensionFiles ++
     [inlineFile filePathKubeletCGroupDriverScript
                 (scriptContentKubeletCGroupDriver G)])%list in
  let extensionUnits :=
    (extensionUnits ++
     [{| Name := "kubelet.service";
         Command := None; Enable := None; UnitContent := None;
         DropIns := [cgroupDriverDropIn filePathKubeletCGroupDriverScript];
         FilePaths := [filePathFunctionsHelperScript;
                       filePathKubeletCGroupDriverScript] |}])%list in
  let filePathContainerdCGroupDriverScript :=
    Join E (ScriptLocation E) "containerd_cgroup_driver.sh" in
  let extensionFiles :=
    (extensionFiles ++
     [inlineFile filePathContainerdCGroupDriverScript
                 (scriptContentContainerdCGroupDriver G)])%list in
  let extensionUnits :=
    (extensionUnits ++
     [{| Name := "containerd.service";
         Command := None; Enable := None; UnitContent := None;
         DropIns := [cgroupDriverDropIn filePathContainerdCGroupDriverScript];
         FilePaths := [filePathFunctionsHelperScript;
                       filePathContainerdCGroupDriverScript] |}])%list in
  (extensionUnits, extensionFiles, Some inPlaceUpdateConfig, None).

(** *** Entry points *)

Definition Reconcile (a : actuator) (osc : OperatingSystemConfig) : Outcome :=
  let purpose := Purpose (Spec osc) in
  if String.eqb purpose OperatingSystemConfigPurposeProvision then
    let (userData, err) := handleProvisionOSC a osc in
    {| userData := userData; extensionUnits := []; extensionFiles := [];
       inPlaceUpdateConfig := None; err := err |}
  else if String.eqb purpose OperatingSystemConfigPurposeReconcile then
    let '(extensionUnits, extensionFiles, inPlaceUpdateConfig, err) :=
      handleReconcileOSC a osc in
    {| userData := ""; extensionUnits := extensionUnits; extensionFiles := extensionFiles;
       inPlaceUpdateConfig := inPlaceUpdateConfig; err := err |}
  else
    {| userData := ""; extensionUnits := []; extensionFiles := [];
       inPlaceUpdateConfig := None;
       err := Some ("unknown purpose: " ++ purpose) |}.

Definition Delete (a : actuator) (osc : OperatingSystemConfig) : option error :=
  None.

Definition Migrate (a : actuator) (osc : OperatingSystemConfig) : option error :=
  Delete a osc.

Definition ForceDelete (a : actuator) (osc : OperatingSystemConfig) : option error :=
  Delete a osc.

Definition Restore (a : actuator) (osc : OperatingSystemConfig) : Outcome :=
  Reconcile a osc.

End Actuator.

(** ** Notions used to state the properties *)

(** The line the provisioning script holds for a unit of the given name. *)
Definition unitLine (name : string) : string :=
  "systemctl enable '" ++ name ++ "' && systemctl restart --no-block '" ++ name ++ "'".

(** The pieces of the script literal of [handleProvisionOSC], to be joined
    by line feeds: its fixed lines around the two rendered fragments. *)
Definition scriptHeadPieces (writeFilesToDiskScript writeUnitsToDiskScript : string)
    : list string :=
  ["#!/bin/bash";
   "if [ ! -s /etc/containerd/config.toml ]; then";
   "  mkdir -p /etc/containerd/";
   "  containerd config default > /etc/containerd/config.toml";
   "  chmod 0644 /etc/containerd/config.toml";
   "fi";
   "";
   "mkdir -p /etc/systemd/system/containerd.service.d";
   "cat <<EOF > /etc/systemd/system/containerd.service.d/11-exec_config.conf";
   "[Service]";
   "ExecStart=";
   "ExecStart=/usr/bin/containerd --config=/etc/containerd/config.toml";
   "EOF";
   "chmod 0644 /etc/systemd/system/containerd.service.d/11-exec_config.conf";
   writeFilesToDiskScript;
   writeUnitsToDiskScript;
   "grep -sq " ++ DQ ++ "^nfsd$" ++ DQ ++ " /etc/modules || echo " ++ DQ ++ "nfsd" ++ DQ ++ " >>/etc/modules";
   "modprobe nfsd";
   "nslookup $(hostname) || systemctl restart systemd-networkd";
   "";
   "systemctl daemon-reload";
   "systemctl enable containerd && systemctl restart containerd";
   "systemctl enable docker && systemctl restart docker"].

(** A field of the decoded configuration, absent when the configuration is. *)
Definition configField (f : MemoryOneConfiguration -> option string)
    (config : option MemoryOneConfiguration) : option string :=
  match config with
  | Some c => f c
  | None => None
  end.

(** The key/value line of a field, if the field is present. *)
Definition keyLine (key : string) (value : option string) : list string :=
  match value with
  | Some v => [key ++ v]
  | None => []
  end.

(** The pieces of the envelope, to be joined by line feeds: the multipart
    header, the key/value part, and the shell-script part that holds the
    wrapped text. *)
Definition envelopePieces (config : option MemoryOneConfiguration) (input : string)
    : list string :=
  ([envelopeFirstLine;
    "MIME-Version: 1.0";
    boundary;
    "Content-Type: text/x-vsmp; section=vsmp"] ++
   keyLine "system_memory=" (configField SystemMemory config) ++
   keyLine "mem_topology=" (configField MemoryTopology config) ++
   [boundary;
    "Content-Type: text/x-shellscript";
    input;
    boundary])%list.

(** The lines beginning with [key] are exactly the line of [value], if any. *)
Definition keyLinesAre (key : string) (value : option string) (text : string) : Prop :=
  linesWith key text = keyLine key value.

(** ** Concrete requests

    A fixed set of imports and a few requests, used to run the actuator on
    concrete inputs.  The renderers and the decoder answer with given
    values here; the theorems themselves hold for all imports. *)

Module Example.

(** The embedded asset [pkg/gardenlinux/scripts/inplace-update.sh]. *)
Definition inplaceUpdateScript : string :=
  "#!/bin/bash" ++ LF ++
  "" ++ LF ++
  "set -Eeuo pipefail" ++ LF ++
  "" ++ LF ++
  "# Check if a version argument is passed" ++ LF ++
  "if [ " ++ DQ ++ "$#" ++ DQ ++ " -ne 1 ]; then" ++ LF ++
  "    echo " ++ DQ ++ "Usage: $0 <version>" ++ DQ ++ LF ++
  "    exit 1" ++ LF ++
  "fi" ++ LF ++
  "" ++ LF ++
  "VERSION=$1" ++ LF ++
  "" ++ LF ++
  "# Run the update with the specified version" ++ LF ++
  "sudo gardenlinux-update " ++ DQ ++ "$VERSION" ++ DQ ++ LF ++
  "sudo reboot".

(** An asset set with the update script and short stand-ins for the three
    scripts that are not among the source files. *)
Definition assets (name : string) : string * option error :=
  if String.eqb name "scripts/inplace-update.sh" then (inplaceUpdateScript, None)
  else if String.eqb name "scripts/g_functions.sh" then ("# g_functions" ++ LF, None)
  else if String.eqb name "scripts/kubelet_cgroup_driver.sh" then ("# kubelet" ++ LF, None)
  else if String.eqb name "scripts/containerd_cgroup_driver.sh" then ("# containerd" ++ LF, None)
  else ("", Some "file does not exist").

Definition imports (render : string * option error) (renderUnits : string)
    (decoded : option MemoryOneConfiguration * option error) : Imports unit :=
  {| FilesToDiskScript := fun _ _ _ => render;
     UnitsToDiskScript := fun _ => renderUnits;
     Join := fun dir name => dir ++ "/" ++ name;
     OSTypeMemoryOneGardenLinux := "memoryone-gardenlinux";
     Configuration := fun _ => decoded;
     ScriptLocation := "/opt/gardener/bin";
     ScriptPermissions := 493%N;
     ReadFile := assets |}.

(** Imports whose renderers succeed with empty fragments and whose decoder
    finds no provider configuration. *)
Definition plain : Imports unit := imports ("", None) "" (None, None).

Definition scripts : Scripts :=
  {| scriptContentInPlaceUpdate := inplaceUpdateScript;
     scriptContentGFunctions := "# g_functions" ++ LF;
     scriptContentKubeletCGroupDriver := "# kubelet" ++ LF;
     scriptContentContainerdCGroupDriver := "# containerd" ++ LF |}.

Definition theActuator : actuator unit := {| client := tt |}.

Definition unitNamed (name : string) : Unit :=
  {| Name := name; Command := None; Enable := Some true; UnitContent := None;
     DropIns := []; FilePaths := [] |}.

Definition request (purpose osType : string) (units : list Unit)
    (osVersion : option string) : OperatingSystemConfig :=
  {| Namespace := "shoot--local--local";
     Spec := {| OSType := osType; ProviderConfig := None; Purpose := purpose;
                Units := units; Files := []; OSVersion := osVersion |} |}.

(** A decoded configuration that sets the system memory only. *)
Definition memory4G : MemoryOneConfiguration :=
  {| MemoryTopology := None; SystemMemory := Some "4G" |}.

(** A decoded configuration without system memory whose topology value
    spans two lines. *)
Definition topologyOnTwoLines : MemoryOneConfiguration :=
  {| MemoryTopology := Some ("2" ++ LF ++ "system_memory=8G"); SystemMemory := None |}.

(** Imports whose file renderer fails. *)
Definition renderFails : Imports unit :=
  imports ("", Some "secret not found") "" (None, None).

(** Imports whose decoder fails. *)
Definition decodeFails : Imports unit :=
  imports ("", None) "" (None, Some "failed to decode provider config").

(** Imports whose decoder finds the given configuration. *)
Definition decodesTo (c : MemoryOneConfiguration) : Imports unit :=
  imports ("", None) "" (Some c, None).

Definition unknownPurpose : OperatingSystemConfig :=
  request "migrate" "gardenlinux" [] None.

Definition reconcile1312 : OperatingSystemConfig :=
  request "reconcile" "gardenlinux" [] (Some "1312.0").

Definition reconcile1312Memory : OperatingSystemConfig :=
  request "reconcile" "memoryone-gardenlinux" [unitNamed "foo.service"] (Some "1312.0").

Definition provisionFoo : OperatingSystemConfig :=
  request "provision" "gardenlinux" [unitNamed "foo.service"] None.

Definition provisionMemory : OperatingSystemConfig :=
  request "provision" "memoryone-gardenlinux" [unitNamed "foo.service"] None.

(** A request with a unit named like the boundary line. *)
Definition provisionBoundaryUnit : OperatingSystemConfig :=
  request "provision" "gardenlinux" [unitNamed "--==BOUNDARY=="] None.

(** A memory-variant request with a unit whose name spans two lines. *)
Definition provisionTwoLineUnit : OperatingSystemConfig :=
  request "provision" "memoryone-gardenlinux"
          [unitNamed ("x" ++ LF ++ "system_memory=1")] None.

End Example.

(** ** The constructor of the actuator *)

(** The controller-runtime manager, as far as [NewActuator] uses it. *)
Record Manager (Client : Type) := {
  GetClient : Client
}.

Definition NewActuator (Client : Type) (mgr : Manager Client) : actuator Client :=
  {| client := GetClient mgr |}.

(** ** The in-place-update script

    [pkg/gardenlinux/scripts/inplace-update.sh] runs under
    [set -Eeuo pipefail]: a simple command that fails ends the script with
    the status of that command.  A run is the list of the commands the
    script executed and the exit status of the script; the exit status of
    each command is given by [run]. *)

Module InplaceUpdate.

Inductive Command :=
| Echo (text : string)
| SudoGardenlinuxUpdate (version : string)
| SudoReboot.

Record Run := {
  executed : list Command;
  exitStatus : N
}.

Definition script (run : Command -> N) (name : string) (args : list string) : Run :=
  if negb (Nat.eqb (List.length args) 1) then
    let usage := Echo ("Usage: " ++ name ++ " <version>") in
    if N.eqb (run usage) 0
    then {| executed := [usage]; exitStatus := 1 |}
    else {| executed := [usage]; exitStatus := run usage |}
  else
    let VERSION := hd "" args in
    let update := SudoGardenlinuxUpdate VERSION in
    if N.eqb (run update) 0
    then {| executed := [update; SudoReboot]; exitStatus := run SudoReboot |}
    else {| executed := [update]; exitStatus := run update |}.

End InplaceUpdate.

(** The names of the four embedded scripts, in the order [init] reads them. *)
Definition assetNames : list string :=
  ["inplace-update.sh"; "g_functions.sh";
   "kubelet_cgroup_driver.sh"; "containerd_cgroup_driver.sh"].

(** ** More concrete inputs *)

Module Sample.

Definition manager : Manager unit := {| GetClient := tt |}.

(** Every command succeeds. *)
Definition allSucceed (c : InplaceUpdate.Command) : N := 0%N.

(** The update fails with status 3, everything else succeeds. *)
Definition updateFails (c : InplaceUpdate.Command) : N :=
  match c with
  | InplaceUpdate.SudoGardenlinuxUpdate _ => 3%N
  | _ => 0%N
  end.

(** A request for the artifacts of a running machine that names no version. *)
Definition reconcileNoVersion : OperatingSystemConfig :=
  Example.request "reconcile" "gardenlinux" [] None.

(** A memory-variant configuration with both fields. *)
Definition memoryBoth : MemoryOneConfiguration :=
  {| MemoryTopology := Some "2"; SystemMemory := Some "4G" |}.

(** A configuration without any field. *)
Definition memoryNone : MemoryOneConfiguration :=
  {| MemoryTopology := None; SystemMemory := None |}.

(** Imports over numbered clients whose file renderer finds nothing
    through client 0 and succeeds through every other client. *)
Definition byClient : Imports nat :=
  {| FilesToDiskScript := fun c _ _ =>
       if Nat.eqb c 0 then ("", Some "secret not found") else ("", None);
     UnitsToDiskScript := fun _ => "";
     Join := fun dir name => dir ++ "/" ++ name;
     OSTypeMemoryOneGardenLinux := "memoryone-gardenlinux";
     Configuration := fun _ => (None, None);
     ScriptLocation := "/opt/gardener/bin";
     ScriptPermissions := 493%N;
     ReadFile := Example.assets |}.

Definition managerOf (c : nat) : Manager nat := {| GetClient := c |}.

End Sample.

(** ** Facts about texts *)

Section TextFacts.

Lemma append_assoc (s t u : string) : (s ++ t) ++ u = s ++ t ++ u.
Proof. induction s as [|c s IH]; cbn; [reflexivity | now rewrite IH]. Qed.

Lemma append_nil_r (s : string) : s ++ "" = s.
Proof. induction s as [|c s IH]; cbn; [reflexivity | now rewrite IH]. Qed.

Lemma hasPrefix_append (p s : string) : hasPrefix p (p ++ s) = true.
Proof.
  induction p as [|c p IH]; [reflexivity|].
  change (hasPrefix (String c p) (String c p ++ s))
    with (Ascii.eqb c c && hasPrefix p (p ++ s)).
  now rewrite Ascii.eqb_refl, IH.
Qed.

Lemma hasPrefix_nil_r (p : string) : p <> "" -> hasPrefix p "" = false.
Proof. destruct p; [congruence | reflexivity]. Qed.

Lemma lines_String (c : ascii) (s : string) :
  lines (String c s) =
  if Ascii.eqb c "010"%char then "" :: lines s
  else match lines s with
       | [] => [String c ""]
       | l :: ls => String c l :: ls
       end.
Proof. reflexivity. Qed.

Lemma occurs_String (c b : ascii) (s : string) :
  occurs c (String b s) = Ascii.eqb c b || occurs c s.
Proof. reflexivity. Qed.

Lemma lines_not_nil (s : string) : lines s <> [].
Proof.
  destruct s as [|c s]; [discriminate|].
  rewrite lines_String.
  destruct (Ascii.eqb c "010"); [discriminate|].
  destruct (lines s); discriminate.
Qed.

(** Splitting at a line feed splits the list of lines. *)
Lemma lines_append_LF (a b : string) :
  lines (a ++ LF ++ b) = (lines a ++ lines b)%list.
Proof.
  induction a as [|c a IH]; [reflexivity|].
  change (String c a ++ LF ++ b) with (String c (a ++ LF ++ b)).
  rewrite !lines_String, IH.
  destruct (Ascii.eqb c "010"); [reflexivity|].
  destruct (lines a) as [|l ls] eqn:Hl; [now apply lines_not_nil in Hl|].
  reflexivity.
Qed.

(** A text without a line feed is one line. *)
Lemma lines_single (s : string) : occurs "010" s = false -> lines s = [s].
Proof.
  induction s as [|c s IH]; [reflexivity|].
  rewrite occurs_String, lines_String, Ascii.eqb_sym.
  intro H. apply orb_false_iff in H as [Hc Hs].
  rewrite Hc, (IH Hs). reflexivity.
Qed.

Lemma occurs_append (c : ascii) (a b : string) :
  occurs c (a ++ b) = occurs c a || occurs c b.
Proof.
  induction a as [|x a IH]; [reflexivity|].
  change (String x a ++ b) with (String x (a ++ b)).
  now rewrite !occurs_String, IH, orb_assoc.
Qed.

Lemma linesWith_append_LF (p a b : string) :
  linesWith p (a ++ LF ++ b) = (linesWith p a ++ linesWith p b)%list.
Proof. unfold linesWith. now rewrite lines_append_LF, filter_app. Qed.

Lemma linesWith_single (p s : string) :
  occurs "010" s = false ->
  linesWith p s = if hasPrefix p s then [s] else [].
Proof. intro H. unfold linesWith. rewrite (lines_single s H). reflexivity. Qed.

(** A marker that lacks the byte [c] cannot straddle an occurrence of [c]. *)
Lemma hasPrefix_cut (c : ascii) (m a b : string) :
  occurs c m = false ->
  hasPrefix m (a ++ String c b) = hasPrefix m a.
Proof.
  revert a. induction m as [|x m IH]; intros a H; [now destruct a|].
  rewrite occurs_String in H. apply orb_false_iff in H as [Hx Hm].
  destruct a as [|y a].
  - change (hasPrefix (String x m) ("" ++ String c b))
      with (Ascii.eqb x c && hasPrefix m b).
    now rewrite Ascii.eqb_sym, Hx.
  - change (hasPrefix (String x m) (String y a ++ String c b))
      with (Ascii.eqb x y && hasPrefix m (a ++ String c b)).
    now rewrite (IH a Hm).
Qed.

Lemma contains_cut (c : ascii) (m a b : string) :
  m <> "" -> occurs c m = false ->
  contains m (a ++ String c b) = contains m a || contains m b.
Proof.
  intros Hne Hc. induction a as [|y a IH].
  - change ("" ++ String c b) with (String c b).
    change (contains m (String c b))
      with (hasPrefix m ("" ++ String c b) || contains m b).
    rewrite (hasPrefix_cut c m "" b Hc). cbn.
    now rewrite (hasPrefix_nil_r Hne).
  - change (contains m (String y a ++ String c b))
      with (hasPrefix m (String y a ++ String c b) || contains m (a ++ String c b)).
    rewrite (hasPrefix_cut c m (String y a) b Hc), IH.
    change (contains m (String y a)) with (hasPrefix m (String y a) || contains m a).
    now rewrite orb_assoc.
Qed.

Lemma concat_cons (x y : string) (l : list string) :
  String.concat LF (x :: y :: l) = x ++ LF ++ String.concat LF (y :: l).
Proof. reflexivity. Qed.

(** Joining pieces by line feeds and splitting again gives the lines of
    the pieces. *)
Lemma lines_concat (l : list string) :
  l <> [] -> lines (String.concat LF l) = flat_map lines l.
Proof.
  induction l as [|x l IH]; [congruence|]. intros _.
  destruct l as [|y l].
  - cbn [String.concat flat_map]. now rewrite app_nil_r.
  - rewrite concat_cons, lines_append_LF, IH by discriminate. reflexivity.
Qed.

Lemma linesWith_concat (p : string) (l : list string) :
  l <> [] -> linesWith p (String.concat LF l) = flat_map (linesWith p) l.
Proof.
  intro H. unfold linesWith. rewrite (lines_concat H). clear H.
  induction l as [|x l IH]; [reflexivity|].
  cbn [flat_map]. now rewrite filter_app, IH.
Qed.

Lemma concat_app (l1 l2 : list string) :
  l1 <> [] -> l2 <> [] ->
  String.concat LF (l1 ++ l2) = String.concat LF l1 ++ LF ++ String.concat LF l2.
Proof.
  intros H1 H2. induction l1 as [|x l1 IH]; [congruence|].
  destruct l1 as [|y l1].
  - destruct l2 as [|z l2]; [congruence|]. reflexivity.
  - change ((x :: y :: l1) ++ l2)%list with (x :: y :: (l1 ++ l2))%list.
    rewrite !concat_cons, !append_assoc. f_equal. f_equal.
    apply IH. discriminate.
Qed.

(** The boundary line has no line feed, no double quote and no single
    quote, so an occurrence of it lies on one side of each of them. *)
Lemma contains_boundary_LF (a b : string) :
  contains boundary (a ++ LF ++ b) = contains boundary a || contains boundary b.
Proof. apply (@contains_cut "010" boundary a b); [discriminate | reflexivity]. Qed.

Lemma contains_boundary_DQ (a b : string) :
  contains boundary (a ++ DQ ++ b) = contains boundary a || contains boundary b.
Proof. apply (@contains_cut "034" boundary a b); [discriminate | reflexivity]. Qed.

Lemma contains_boundary_SQ (a b : string) :
  contains boundary (a ++ "'" ++ b) = contains boundary a || contains boundary b.
Proof. apply (@contains_cut "'" boundary a b); [discriminate | reflexivity]. Qed.

End TextFacts.

(** ** Properties of the dispatch and of the artifact builder *)

Section Dispatch.

Variable Client : Type.
Variable E : Imports Client.
Variable G : Scripts.

Lemma purpose_eqb_neq (p q : string) : p <> q -> String.eqb p q = false.
Proof. intro H. apply String.eqb_neq. exact H. Qed.

Lemma provision_is_not_reconcile :
  String.eqb OperatingSystemConfigPurposeReconcile
             OperatingSystemConfigPurposeProvision = false.
Proof. reflexivity. Qed.

(** The dispatch of [Reconcile], one equation per arm of the switch. *)
Lemma Reconcile_provision (a : actuator Client) (osc : OperatingSystemConfig) :
  Purpose (Spec osc) = OperatingSystemConfigPurposeProvision ->
  Reconcile E G a osc =
  {| userData := fst (handleProvisionOSC E a osc);
     extensionUnits := []; extensionFiles := []; inPlaceUpdateConfig := None;
     err := snd (handleProvisionOSC E a osc) |}.
Proof.
  intro Hp. unfold Reconcile. rewrite Hp, String.eqb_refl.
  destruct (handleProvisionOSC E a osc); reflexivity.
Qed.

Lemma Reconcile_reconcile (a : actuator Client) (osc : OperatingSystemConfig) :
  Purpose (Spec osc) = OperatingSystemConfigPurposeReconcile ->
  Reconcile E G a osc =
  let '(us, fs, cfg, e) := handleReconcileOSC E G a osc in
  {| userData := ""; extensionUnits := us; extensionFiles := fs;
     inPlaceUpdateConfig := cfg; err := e |}.
Proof.
  intro Hp. unfold Reconcile. rewrite Hp, provision_is_not_reconcile, String.eqb_refl.
  reflexivity.
Qed.

(** C1. A request whose purpose is neither Provision nor Reconcile gets the
    error [unknown purpose: <purpose>] and nothing else: empty script
    bytes, no units, no files and no in-place-update configuration. *)
Theorem Reconcile_unknown_purpose (a : actuator Client) (osc : OperatingSystemConfig) :
  Purpose (Spec osc) <> OperatingSystemConfigPurposeProvision ->
  Purpose (Spec osc) <> OperatingSystemConfigPurposeReconcile ->
  Reconcile E G a osc =
  {| userData := ""; extensionUnits := []; extensionFiles := [];
     inPlaceUpdateConfig := None;
     err := Some ("unknown purpose: " ++ Purpose (Spec osc)) |}.
Proof.
  intros Hp Hr. unfold Reconcile.
  rewrite (purpose_eqb_neq Hp), (purpose_eqb_neq Hr). reflexivity.
Qed.

(** C2. On a Reconcile request the result holds exactly four files, in
    the order update script, helper script, kubelet script, containerd
    script, each with its embedded content; exactly two units,
    [kubelet.service] then [containerd.service], each with the single
    drop-in [10-configure-cgroup-driver.conf]; and an in-place-update
    configuration whose command is the path of the update script and whose
    only argument is the OS version, or the empty string when it is unset.
    No script bytes and no error come with them. *)
Theorem Reconcile_artifacts (a : actuator Client) (osc : OperatingSystemConfig) :
  Purpose (Spec osc) = OperatingSystemConfigPurposeReconcile ->
  let r := Reconcile E G a osc in
  map Path (extensionFiles r) =
    [Join E (ScriptLocation E) "inplace-update.sh";
     Join E (ScriptLocation E) "g_functions.sh";
     Join E (ScriptLocation E) "kubelet_cgroup_driver.sh";
     Join E (ScriptLocation E) "containerd_cgroup_driver.sh"] /\
  map (fun f => option_map Data (Inline (Content f))) (extensionFiles r) =
    [Some (scriptContentInPlaceUpdate G);
     Some (scriptContentGFunctions G);
     Some (scriptContentKubeletCGroupDriver G);
     Some (scriptContentContainerdCGroupDriver G)] /\
  map Name (extensionUnits r) = ["kubelet.service"; "containerd.service"] /\
  map (fun u => map DropInName (DropIns u)) (extensionUnits r) =
    [["10-configure-cgroup-driver.conf"]; ["10-configure-cgroup-driver.conf"]] /\
  inPlaceUpdateConfig r =
    Some {| OSUpdateCommand := Some (Join E (ScriptLocation E) "inplace-update.sh");
            OSUpdateCommandArgs :=
              [match OSVersion (Spec osc) with Some v => v | None => "" end] |} /\
  userData r = "" /\
  err r = None.
Proof.
  intros Hp r. subst r. rewrite (Reconcile_reconcile a osc Hp).
  cbn. repeat split; reflexivity.
Qed.

(** C3. On a Reconcile request the command of the in-place-update
    configuration is the path of a file of the same result, and so is every
    entry of the file paths of every unit of the result. *)
Theorem Reconcile_referential_integrity (a : actuator Client) (osc : OperatingSystemConfig) :
  Purpose (Spec osc) = OperatingSystemConfigPurposeReconcile ->
  let r := Reconcile E G a osc in
  (exists cfg cmd,
      inPlaceUpdateConfig r = Some cfg /\
      OSUpdateCommand cfg = Some cmd /\
      In cmd (map Path (extensionFiles r))) /\
  (forall u p,
      In u (extensionUnits r) -> In p (FilePaths u) ->
      In p (map Path (extensionFiles r))).
Proof.
  intros Hp r. subst r. rewrite (Reconcile_reconcile a osc Hp). cbn. split.
  - eexists. eexists. split; [reflexivity|]. split; [reflexivity|].
    left. reflexivity.
  - intros u p [Hu | [Hu | []]] Hin; subst u; cbn in Hin;
      destruct Hin as [<- | [<- | []]]; cbn; tauto.
Qed.

(** C4. [Restore] is [Reconcile]: on every request the two return the
    same script bytes, units, files, update configuration and error. *)
Theorem Restore_is_Reconcile (a : actuator Client) (osc : OperatingSystemConfig) :
  Restore E G a osc = Reconcile E G a osc /\
  userData (Restore E G a osc) = userData (Reconcile E G a osc) /\
  extensionUnits (Restore E G a osc) = extensionUnits (Reconcile E G a osc) /\
  extensionFiles (Restore E G a osc) = extensionFiles (Reconcile E G a osc) /\
  inPlaceUpdateConfig (Restore E G a osc) = inPlaceUpdateConfig (Reconcile E G a osc) /\
  err (Restore E G a osc) = err (Reconcile E G a osc).
Proof. unfold Restore. repeat split. Qed.

(** C9. [Delete] returns a nil error on every request and has no other
    result; [Migrate] and [ForceDelete] return what [Delete] returns, so
    they succeed as well. *)
Theorem Delete_always_succeeds (a : actuator Client) (osc : OperatingSystemConfig) :
  Delete a osc = None /\
  Migrate a osc = Delete a osc /\
  ForceDelete a osc = Delete a osc /\
  Migrate a osc = None /\
  ForceDelete a osc = None.
Proof. unfold Migrate, ForceDelete, Delete. repeat split. Qed.

(** C10. The artifact builder reads nothing of the request but its OS
    version: two requests with the same OS version, handled by any two
    actuators, get the same units, files and update configuration, and the
    error is nil. *)
Theorem handleReconcileOSC_depends_on_version_only
    (a1 a2 : actuator Client) (osc1 osc2 : OperatingSystemConfig) :
  OSVersion (Spec osc1) = OSVersion (Spec osc2) ->
  handleReconcileOSC E G a1 osc1 = handleReconcileOSC E G a2 osc2 /\
  snd (handleReconcileOSC E G a1 osc1) = None.
Proof.
  intro Hv. unfold handleReconcileOSC. rewrite Hv. split; reflexivity.
Qed.

End Dispatch.

(** ** Properties of the provisioning script and of its envelope *)

Section Provisioning.

Variable Client : Type.
Variable E : Imports Client.
Variable G : Scripts.

(** The loop over the units appends one formatted line per unit. *)
Lemma fold_enableRestart (units : list Unit) (script : string) :
  fold_left (fun script unit => script ++ enableRestart (Name unit)) units script =
  script ++ cat (map (fun unit => enableRestart (Name unit)) units).
Proof.
  revert script. induction units as [|u units IH]; intro script; cbn [fold_left map cat].
  - now rewrite append_nil_r.
  - now rewrite IH, append_assoc.
Qed.

Lemma enableRestart_unitLine (name : string) :
  enableRestart name = unitLine name ++ LF.
Proof. unfold enableRestart, unitLine. now rewrite !append_assoc. Qed.

Lemma composeScript_eq (f u : string) (units : list Unit) :
  composeScript f u units =
  scriptHead f u ++ cat (map (fun unit => unitLine (Name unit) ++ LF) units).
Proof.
  unfold composeScript. rewrite fold_enableRestart. f_equal. f_equal.
  apply map_ext. intro unit. apply enableRestart_unitLine.
Qed.

(** The three ways out of [handleProvisionOSC]. *)
Lemma handleProvisionOSC_render_error (a : actuator Client) (osc : OperatingSystemConfig)
    (s : string) (e : error) :
  FilesToDiskScript E (client a) (Namespace osc) (Files (Spec osc)) = (s, Some e) ->
  handleProvisionOSC E a osc = ("", Some e).
Proof. intro H. unfold handleProvisionOSC. now rewrite H. Qed.

Lemma handleProvisionOSC_plain (a : actuator Client) (osc : OperatingSystemConfig)
    (f : string) :
  FilesToDiskScript E (client a) (Namespace osc) (Files (Spec osc)) = (f, None) ->
  OSType (Spec osc) <> OSTypeMemoryOneGardenLinux E ->
  handleProvisionOSC E a osc =
  (composeScript f (UnitsToDiskScript E (Units (Spec osc))) (Units (Spec osc)), None).
Proof.
  intros H Ht. unfold handleProvisionOSC. rewrite H.
  apply String.eqb_neq in Ht. now rewrite Ht.
Qed.

Lemma handleProvisionOSC_memory (a : actuator Client) (osc : OperatingSystemConfig)
    (f : string) :
  FilesToDiskScript E (client a) (Namespace osc) (Files (Spec osc)) = (f, None) ->
  OSType (Spec osc) = OSTypeMemoryOneGardenLinux E ->
  handleProvisionOSC E a osc =
  wrapIntoMemoryOneHeaderAndFooter E osc
    (composeScript f (UnitsToDiskScript E (Units (Spec osc))) (Units (Spec osc))).
Proof.
  intros H Ht. unfold handleProvisionOSC. rewrite H.
  apply String.eqb_eq in Ht. now rewrite Ht.
Qed.

(** The two ways out of the wrapper. *)
Lemma wrap_error (osc : OperatingSystemConfig) (input : string)
    (config : option MemoryOneConfiguration) (e : error) :
  Configuration E osc = (config, Some e) ->
  wrapIntoMemoryOneHeaderAndFooter E osc input = ("", Some e).
Proof. intro H. unfold wrapIntoMemoryOneHeaderAndFooter. now rewrite H. Qed.

Lemma wrap_ok (osc : OperatingSystemConfig) (input : string)
    (config : option MemoryOneConfiguration) :
  Configuration E osc = (config, None) ->
  wrapIntoMemoryOneHeaderAndFooter E osc input =
  (String.concat LF (envelopePieces config input), None).
Proof.
  intro H. unfold wrapIntoMemoryOneHeaderAndFooter. rewrite H. f_equal.
  destruct config as [[[mt|] [sm|]]|]; cbn [MemoryTopology SystemMemory];
    rewrite ?append_assoc; reflexivity.
Qed.

(** Where the boundary line can occur in the composed script: only inside
    a rendered fragment or inside a unit name. *)
Lemma contains_boundary_scriptHead (f u rest : string) :
  contains boundary (scriptHead f u ++ rest) =
  contains boundary f || contains boundary u || contains boundary rest.
Proof.
  unfold scriptHead. rewrite !append_assoc.
  repeat (rewrite contains_boundary_LF || rewrite contains_boundary_DQ).
  cbn. now rewrite orb_assoc.
Qed.

Lemma enableRestart_pieces (name rest : string) :
  enableRestart name ++ rest =
  "systemctl enable " ++ "'" ++ name ++ "'" ++
  " && systemctl restart --no-block " ++ "'" ++ name ++ "'" ++ "" ++ LF ++ rest.
Proof. unfold enableRestart. rewrite !append_assoc. reflexivity. Qed.

Lemma contains_boundary_unit_lines (units : list Unit) :
  contains boundary (cat (map (fun unit => enableRestart (Name unit)) units)) =
  existsb (fun unit => contains boundary (Name unit)) units.
Proof.
  induction units as [|unit units IH]; [reflexivity|].
  cbn [map cat existsb]. rewrite enableRestart_pieces.
  repeat (rewrite contains_boundary_SQ || rewrite contains_boundary_LF).
  rewrite IH.
  change (contains boundary "systemctl enable ") with false.
  change (contains boundary " && systemctl restart --no-block ") with false.
  change (contains boundary "") with false.
  cbn [orb]. destruct (contains boundary (Name unit)); reflexivity.
Qed.

Lemma contains_boundary_composeScript (f u : string) (units : list Unit) :
  contains boundary (composeScript f u units) =
  contains boundary f || contains boundary u ||
  existsb (fun unit => contains boundary (Name unit)) units.
Proof.
  unfold composeScript.
  now rewrite fold_enableRestart, contains_boundary_scriptHead,
    contains_boundary_unit_lines.
Qed.

Lemma composeScript_shebang (f u : string) (units : list Unit) :
  hasPrefix "#!/bin/bash" (composeScript f u units) = true.
Proof.
  unfold composeScript. rewrite fold_enableRestart. unfold scriptHead.
  rewrite append_assoc. apply hasPrefix_append.
Qed.

(** The lines of the envelope that begin with one of the two keys are
    those of the key/value part and those of the wrapped text. *)
Lemma envelope_lines_with (key : string)
    (config : option MemoryOneConfiguration) (input : string) :
  key = "system_memory=" \/ key = "mem_topology=" ->
  linesWith key (String.concat LF (envelopePieces config input)) =
  (flat_map (linesWith key)
     (keyLine "system_memory=" (configField SystemMemory config) ++
      keyLine "mem_topology=" (configField MemoryTopology config)) ++
   linesWith key input)%list.
Proof.
  intro Hk. rewrite linesWith_concat by discriminate.
  unfold envelopePieces. rewrite !flat_map_app.
  destruct Hk; subst key;
    (replace (flat_map (linesWith _) [envelopeFirstLine; _; _; _]) with (@nil string)
       by reflexivity);
    cbn [flat_map];
    change (linesWith _ boundary) with (@nil string);
    change (linesWith _ "Content-Type: text/x-shellscript") with (@nil string);
    rewrite ?app_nil_r; cbn [app]; now rewrite app_assoc.
Qed.

Lemma keyLine_own (key : string) (value : option string) :
  occurs "010" key = false ->
  (forall v, value = Some v -> occurs "010" v = false) ->
  flat_map (linesWith key) (keyLine key value) = keyLine key value.
Proof.
  intros Hk Hv. destruct value as [v|]; [|reflexivity].
  cbn [keyLine flat_map]. rewrite linesWith_single.
  - now rewrite hasPrefix_append.
  - now rewrite occurs_append, Hk, (Hv v eq_refl).
Qed.

Lemma keyLine_other (key other : string) (value : option string) :
  occurs "010" other = false ->
  (forall v, hasPrefix key (other ++ v) = false) ->
  (forall v, value = Some v -> occurs "010" v = false) ->
  flat_map (linesWith key) (keyLine other value) = [].
Proof.
  intros Hk Hp Hv. destruct value as [v|]; [|reflexivity].
  cbn [keyLine flat_map]. rewrite linesWith_single.
  - now rewrite Hp.
  - now rewrite occurs_append, Hk, (Hv v eq_refl).
Qed.

(** The composed script as pieces joined by line feeds: the script literal
    with the rendered fragments, then one line per unit in the order of
    the request, then the end of the last line. *)
Lemma scriptHead_pieces (f u : string) :
  scriptHead f u = String.concat LF (scriptHeadPieces f u ++ [""]).
Proof. reflexivity. Qed.

Lemma concat_terminated (l1 l2 : list string) :
  l1 <> [] ->
  String.concat LF (l1 ++ [""]) ++ cat (map (fun s => s ++ LF) l2) =
  String.concat LF (l1 ++ l2 ++ [""]).
Proof.
  revert l1. induction l2 as [|x l2 IH]; intros l1 H1; cbn [map cat app].
  - now rewrite append_nil_r.
  - change (l1 ++ x :: l2 ++ [""])%list with (l1 ++ [x] ++ (l2 ++ [""]))%list.
    assert (H2 : (l1 ++ [x])%list <> []) by (destruct l1; discriminate).
    rewrite app_assoc, <- (IH (l1 ++ [x])%list H2).
    rewrite <- append_assoc. f_equal.
    rewrite !concat_app by (assumption || discriminate).
    cbn [String.concat]. now rewrite !append_assoc, append_nil_r.
Qed.

Lemma composeScript_pieces (f u : string) (units : list Unit) :
  composeScript f u units =
  String.concat LF
    (scriptHeadPieces f u ++ map (fun unit => unitLine (Name unit)) units ++ [""]).
Proof.
  rewrite composeScript_eq, scriptHead_pieces.
  rewrite <- (@concat_terminated (scriptHeadPieces f u)
                (map (fun unit => unitLine (Name unit)) units)) by discriminate.
  now rewrite map_map.
Qed.

Lemma unit_lines_without_key (key : string) (units : list Unit) :
  key = "system_memory=" \/ key = "mem_topology=" ->
  (forall unit, In unit units -> occurs "010" (Name unit) = false) ->
  flat_map (linesWith key) (map (fun unit => unitLine (Name unit)) units) = [].
Proof.
  intros Hk Hn. induction units as [|unit units IH]; [reflexivity|].
  cbn [map flat_map]. rewrite IH by (intros; apply Hn; now right).
  rewrite linesWith_single.
  - destruct Hk; subst key; reflexivity.
  - unfold unitLine. rewrite !occurs_append, (Hn unit) by now left. reflexivity.
Qed.

(** The lines of the composed script that begin with one of the two keys
    come from the rendered fragments, when no unit name holds a line feed. *)
Lemma composeScript_lines_with (key f u : string) (units : list Unit) :
  key = "system_memory=" \/ key = "mem_topology=" ->
  (forall unit, In unit units -> occurs "010" (Name unit) = false) ->
  linesWith key (composeScript f u units) = (linesWith key f ++ linesWith key u)%list.
Proof.
  intros Hk Hn.
  rewrite composeScript_pieces, linesWith_concat by discriminate.
  rewrite !flat_map_app, (@unit_lines_without_key key units Hk Hn).
  destruct Hk; subst key; cbn [scriptHeadPieces flat_map];
    repeat match goal with
    | |- context [linesWith ?k ?s] =>
        lazymatch s with
        | f => fail
        | u => fail
        | _ => change (linesWith k s) with (@nil string)
        end
    end;
    cbn [app]; now rewrite !app_nil_r.
Qed.

Lemma wrap_key_lines (osc : OperatingSystemConfig) (input : string)
    (config : option MemoryOneConfiguration) :
  Configuration E osc = (config, None) ->
  (forall v, configField SystemMemory config = Some v -> occurs "010" v = false) ->
  (forall v, configField MemoryTopology config = Some v -> occurs "010" v = false) ->
  linesWith "system_memory=" input = [] ->
  linesWith "mem_topology=" input = [] ->
  keyLinesAre "system_memory=" (configField SystemMemory config)
    (fst (wrapIntoMemoryOneHeaderAndFooter E osc input)) /\
  keyLinesAre "mem_topology=" (configField MemoryTopology config)
    (fst (wrapIntoMemoryOneHeaderAndFooter E osc input)).
Proof.
  intros Hc Hsm Hmt Hi1 Hi2. rewrite (wrap_ok osc input Hc). cbn [fst].
  unfold keyLinesAre. split.
  - rewrite envelope_lines_with by now left.
    rewrite flat_map_app, (@keyLine_own "system_memory=" _ eq_refl Hsm).
    rewrite (@keyLine_other "system_memory=" "mem_topology=" _ eq_refl
               (fun v => eq_refl) Hmt).
    now rewrite Hi1, !app_nil_r.
  - rewrite envelope_lines_with by now right.
    rewrite flat_map_app, (@keyLine_own "mem_topology=" _ eq_refl Hmt).
    rewrite (@keyLine_other "mem_topology=" "system_memory=" _ eq_refl
               (fun v => eq_refl) Hsm).
    now rewrite Hi2, !app_nil_r.
Qed.

(** C5 (as amended). On a Provision request of the memory variant whose
    files were rendered and whose configuration was decoded, if no unit
    name and no present configuration value holds a line feed and no line
    of the rendered fragments begins with [system_memory=] or
    [mem_topology=], then the lines of the envelope that begin with
    [system_memory=] are the single line [system_memory=<value>] when the
    system memory is present and none when it is absent, and likewise for
    [mem_topology=] and the memory topology. *)
Theorem memory_envelope_key_lines (a : actuator Client) (osc : OperatingSystemConfig)
    (f : string) (config : option MemoryOneConfiguration) :
  Purpose (Spec osc) = OperatingSystemConfigPurposeProvision ->
  OSType (Spec osc) = OSTypeMemoryOneGardenLinux E ->
  FilesToDiskScript E (client a) (Namespace osc) (Files (Spec osc)) = (f, None) ->
  Configuration E osc = (config, None) ->
  (forall v, configField SystemMemory config = Some v -> occurs "010" v = false) ->
  (forall v, configField MemoryTopology config = Some v -> occurs "010" v = false) ->
  (forall unit, In unit (Units (Spec osc)) -> occurs "010" (Name unit) = false) ->
  (forall key, key = "system_memory=" \/ key = "mem_topology=" ->
               linesWith key f = [] /\
               linesWith key (UnitsToDiskScript E (Units (Spec osc))) = []) ->
  let out := userData (Reconcile E G a osc) in
  keyLinesAre "system_memory=" (configField SystemMemory config) out /\
  keyLinesAre "mem_topology=" (configField MemoryTopology config) out.
Proof.
  intros Hp Ht Hf Hc Hsm Hmt Hn Hfrag out. subst out.
  rewrite (@Reconcile_provision Client E G a osc Hp). cbn [userData].
  rewrite (handleProvisionOSC_memory a osc Hf Ht).
  apply (wrap_key_lines osc _ Hc Hsm Hmt).
  - rewrite composeScript_lines_with by (auto).
    destruct (Hfrag "system_memory=" (or_introl eq_refl)) as [H1 H2].
    now rewrite H1, H2.
  - rewrite composeScript_lines_with by (auto).
    destruct (Hfrag "mem_topology=" (or_intror eq_refl)) as [H1 H2].
    now rewrite H1, H2.
Qed.

(** C6 (as amended). On a Provision request whose files were rendered:
    if the OS type is not the memory variant, the returned bytes are the
    composed script, they begin with [#!/bin/bash], and the boundary line
    occurs in them exactly when it occurs in a rendered fragment or in a
    unit name; if the OS type is the memory variant and its configuration
    was decoded, the returned bytes begin with the line
    [Content-Type: multipart/mixed; boundary=<quoted ==BOUNDARY==>] and end
    with a boundary line, the shell-script content type, the composed
    script verbatim and a closing boundary line. *)
Theorem provision_output_shape (a : actuator Client) (osc : OperatingSystemConfig)
    (f : string) :
  Purpose (Spec osc) = OperatingSystemConfigPurposeProvision ->
  FilesToDiskScript E (client a) (Namespace osc) (Files (Spec osc)) = (f, None) ->
  let units := Units (Spec osc) in
  let script := composeScript f (UnitsToDiskScript E units) units in
  let r := Reconcile E G a osc in
  (OSType (Spec osc) <> OSTypeMemoryOneGardenLinux E ->
   userData r = script /\
   err r = None /\
   hasPrefix "#!/bin/bash" (userData r) = true /\
   contains boundary (userData r) =
     contains boundary f || contains boundary (UnitsToDiskScript E units) ||
     existsb (fun unit => contains boundary (Name unit)) units) /\
  (OSType (Spec osc) = OSTypeMemoryOneGardenLinux E ->
   forall config, Configuration E osc = (config, None) ->
   err r = None /\
   hasPrefix (envelopeFirstLine ++ LF) (userData r) = true /\
   userData r =
     String.concat LF
       ([envelopeFirstLine; "MIME-Version: 1.0"; boundary;
         "Content-Type: text/x-vsmp; section=vsmp"] ++
        keyLine "system_memory=" (configField SystemMemory config) ++
        keyLine "mem_topology=" (configField MemoryTopology config)) ++ LF ++
     boundary ++ LF ++
     "Content-Type: text/x-shellscript" ++ LF ++
     script ++ LF ++
     boundary).
Proof.
  intros Hp Hf units script r. subst r.
  rewrite (@Reconcile_provision Client E G a osc Hp). cbn [userData err].
  split.
  - intro Ht. rewrite (handleProvisionOSC_plain a osc Hf Ht). cbn [fst snd].
    fold units. fold script.
    split; [reflexivity|]. split; [reflexivity|]. split.
    + apply composeScript_shebang.
    + apply contains_boundary_composeScript.
  - intros Ht config Hc.
    rewrite (handleProvisionOSC_memory a osc Hf Ht). fold units. fold script.
    rewrite (wrap_ok osc script Hc). cbn [fst snd].
    split; [reflexivity|]. split.
    + cbn [envelopePieces app]. rewrite concat_cons, <- append_assoc.
      apply hasPrefix_append.
    + unfold envelopePieces. rewrite !app_assoc.
      rewrite concat_app by (discriminate || (cbn; discriminate)).
      rewrite <- !app_assoc. reflexivity.
Qed.

(** C7. On a Provision request the composed script is the script literal
    with the rendered fragments followed by one line per unit of the
    request, in the order of the request, each line being
    [systemctl enable '<name>' && systemctl restart --no-block '<name>']
    with the name of the unit as it is; this script is what is returned,
    as it is or inside the envelope of the memory variant. *)
Theorem provision_unit_lines (a : actuator Client) (osc : OperatingSystemConfig) :
  Purpose (Spec osc) = OperatingSystemConfigPurposeProvision ->
  let units := Units (Spec osc) in
  let u := UnitsToDiskScript E units in
  (forall f,
     composeScript f u units =
     scriptHead f u ++
     cat (map (fun unit =>
                 "systemctl enable '" ++ Name unit ++
                 "' && systemctl restart --no-block '" ++ Name unit ++ "'" ++ LF)
              units)) /\
  (forall f,
     composeScript f u units =
     String.concat LF
       (scriptHeadPieces f u ++ map (fun unit => unitLine (Name unit)) units ++ [""])) /\
  (forall f,
     FilesToDiskScript E (client a) (Namespace osc) (Files (Spec osc)) = (f, None) ->
     OSType (Spec osc) <> OSTypeMemoryOneGardenLinux E ->
     userData (Reconcile E G a osc) = composeScript f u units) /\
  (forall f config,
     FilesToDiskScript E (client a) (Namespace osc) (Files (Spec osc)) = (f, None) ->
     OSType (Spec osc) = OSTypeMemoryOneGardenLinux E ->
     Configuration E osc = (config, None) ->
     userData (Reconcile E G a osc) =
     String.concat LF (envelopePieces config (composeScript f u units))).
Proof.
  intros Hp units u. repeat split.
  - intro f. unfold composeScript. apply fold_enableRestart.
  - intro f. apply composeScript_pieces.
  - intros f Hf Ht. rewrite (@Reconcile_provision Client E G a osc Hp).
    cbn [userData]. now rewrite (handleProvisionOSC_plain a osc Hf Ht).
  - intros f config Hf Ht Hc. rewrite (@Reconcile_provision Client E G a osc Hp).
    cbn [userData]. rewrite (handleProvisionOSC_memory a osc Hf Ht).
    now rewrite (wrap_ok osc _ Hc).
Qed.

(** C8. On a Provision request, an error of the file renderer, and for
    the memory variant an error of the configuration decoder, is returned
    as it is together with an empty script and nothing else; whenever the
    returned error is not nil the returned script is empty. *)
Theorem provision_errors_unchanged (a : actuator Client) (osc : OperatingSystemConfig) :
  Purpose (Spec osc) = OperatingSystemConfigPurposeProvision ->
  (forall s e,
     FilesToDiskScript E (client a) (Namespace osc) (Files (Spec osc)) = (s, Some e) ->
     Reconcile E G a osc =
     {| userData := ""; extensionUnits := []; extensionFiles := [];
        inPlaceUpdateConfig := None; err := Some e |}) /\
  (forall f config e,
     FilesToDiskScript E (client a) (Namespace osc) (Files (Spec osc)) = (f, None) ->
     OSType (Spec osc) = OSTypeMemoryOneGardenLinux E ->
     Configuration E osc = (config, Some e) ->
     Reconcile E G a osc =
     {| userData := ""; extensionUnits := []; extensionFiles := [];
        inPlaceUpdateConfig := None; err := Some e |}) /\
  (forall e, err (Reconcile E G a osc) = Some e -> userData (Reconcile E G a osc) = "").
Proof.
  intro Hp. rewrite (@Reconcile_provision Client E G a osc Hp).
  split; [|split].
  - intros s e Hf. rewrite (handleProvisionOSC_render_error a osc Hf). reflexivity.
  - intros f config e Hf Ht Hc.
    rewrite (handleProvisionOSC_memory a osc Hf Ht), (wrap_error osc _ Hc).
    reflexivity.
  - intros e. cbn [err userData]. unfold handleProvisionOSC.
    destruct (FilesToDiskScript E (client a) (Namespace osc) (Files (Spec osc)))
      as [f [e1|]]; [reflexivity|].
    destruct (String.eqb (OSType (Spec osc)) (OSTypeMemoryOneGardenLinux E)).
    + unfold wrapIntoMemoryOneHeaderAndFooter.
      destruct (Configuration E osc) as [config [e2|]]; [reflexivity|].
      cbn [snd]. discriminate.
    + cbn [snd]. discriminate.
Qed.

End Provisioning.

(** ** The properties on concrete requests *)

Section Instances.

Import Example.

(** [init] on the example asset set fills the package variables. *)
Lemma init_example : init plain = Some scripts.
Proof. reflexivity. Qed.

Lemma Reconcile_unknown_purpose_witness :
  Purpose (Spec unknownPurpose) <> OperatingSystemConfigPurposeProvision /\
  Purpose (Spec unknownPurpose) <> OperatingSystemConfigPurposeReconcile /\
  Reconcile plain scripts theActuator unknownPurpose =
  {| userData := ""; extensionUnits := []; extensionFiles := [];
     inPlaceUpdateConfig := None;
     err := Some "unknown purpose: migrate" |}.
Proof.
  assert (H1 : Purpose (Spec unknownPurpose) <> OperatingSystemConfigPurposeProvision)
    by (vm_compute; discriminate).
  assert (H2 : Purpose (Spec unknownPurpose) <> OperatingSystemConfigPurposeReconcile)
    by (vm_compute; discriminate).
  split; [exact H1|]. split; [exact H2|].
  exact (@Reconcile_unknown_purpose unit plain scripts theActuator unknownPurpose H1 H2).
Defined.

Lemma Reconcile_artifacts_witness :
  Purpose (Spec reconcile1312) = OperatingSystemConfigPurposeReconcile /\
  let r := Reconcile plain scripts theActuator reconcile1312 in
  map Path (extensionFiles r) =
    ["/opt/gardener/bin/inplace-update.sh";
     "/opt/gardener/bin/g_functions.sh";
     "/opt/gardener/bin/kubelet_cgroup_driver.sh";
     "/opt/gardener/bin/containerd_cgroup_driver.sh"] /\
  map (fun f => option_map Data (Inline (Content f))) (extensionFiles r) =
    [Some inplaceUpdateScript;
     Some ("# g_functions" ++ LF);
     Some ("# kubelet" ++ LF);
     Some ("# containerd" ++ LF)] /\
  map Name (extensionUnits r) = ["kubelet.service"; "containerd.service"] /\
  map (fun u => map DropInName (DropIns u)) (extensionUnits r) =
    [["10-configure-cgroup-driver.conf"]; ["10-configure-cgroup-driver.conf"]] /\
  inPlaceUpdateConfig r =
    Some {| OSUpdateCommand := Some "/opt/gardener/bin/inplace-update.sh";
            OSUpdateCommandArgs := ["1312.0"] |} /\
  userData r = "" /\
  err r = None.
Proof.
  split; [reflexivity|].
  exact (@Reconcile_artifacts unit plain scripts theActuator reconcile1312 eq_refl).
Defined.

Lemma Reconcile_referential_integrity_witness :
  Purpose (Spec reconcile1312) = OperatingSystemConfigPurposeReconcile /\
  let r := Reconcile plain scripts theActuator reconcile1312 in
  (exists cfg cmd,
      inPlaceUpdateConfig r = Some cfg /\
      OSUpdateCommand cfg = Some cmd /\
      In cmd (map Path (extensionFiles r))) /\
  (forall u p,
      In u (extensionUnits r) -> In p (FilePaths u) ->
      In p (map Path (extensionFiles r))).
Proof.
  split; [reflexivity|].
  exact (@Reconcile_referential_integrity unit plain scripts theActuator
           reconcile1312 eq_refl).
Defined.

Lemma handleReconcileOSC_depends_on_version_only_witness :
  OSVersion (Spec reconcile1312) = OSVersion (Spec reconcile1312Memory) /\
  reconcile1312 <> reconcile1312Memory /\
  handleReconcileOSC plain scripts theActuator reconcile1312 =
  handleReconcileOSC plain scripts theActuator reconcile1312Memory /\
  snd (handleReconcileOSC plain scripts theActuator reconcile1312) = None.
Proof.
  split; [reflexivity|]. split; [discriminate|].
  exact (@handleReconcileOSC_depends_on_version_only unit plain scripts
           theActuator theActuator reconcile1312 reconcile1312Memory eq_refl).
Defined.

Lemma memory_envelope_key_lines_witness :
  Purpose (Spec provisionMemory) = OperatingSystemConfigPurposeProvision /\
  OSType (Spec provisionMemory) = OSTypeMemoryOneGardenLinux (decodesTo memory4G) /\
  Configuration (decodesTo memory4G) provisionMemory = (Some memory4G, None) /\
  let out := userData (Reconcile (decodesTo memory4G) scripts theActuator provisionMemory) in
  linesWith "system_memory=" out = ["system_memory=4G"] /\
  linesWith "mem_topology=" out = [].
Proof.
  split; [reflexivity|]. split; [reflexivity|]. split; [reflexivity|].
  apply (@memory_envelope_key_lines unit (decodesTo memory4G) scripts theActuator
           provisionMemory "" (Some memory4G)).
  - reflexivity.
  - reflexivity.
  - reflexivity.
  - reflexivity.
  - intros v H. injection H as <-. reflexivity.
  - intros v H. discriminate H.
  - intros unit [<- | []]. reflexivity.
  - intros key [-> | ->]; split; reflexivity.
Defined.

Lemma provision_output_shape_witness :
  (Purpose (Spec provisionFoo) = OperatingSystemConfigPurposeProvision /\
   OSType (Spec provisionFoo) <> OSTypeMemoryOneGardenLinux plain /\
   let out := userData (Reconcile plain scripts theActuator provisionFoo) in
   hasPrefix "#!/bin/bash" out = true /\ contains boundary out = false) /\
  (Purpose (Spec provisionMemory) = OperatingSystemConfigPurposeProvision /\
   OSType (Spec provisionMemory) = OSTypeMemoryOneGardenLinux (decodesTo memory4G) /\
   let out := userData (Reconcile (decodesTo memory4G) scripts theActuator provisionMemory) in
   hasPrefix (envelopeFirstLine ++ LF) out = true /\
   exists before,
     out = before ++ boundary ++ LF ++ "Content-Type: text/x-shellscript" ++ LF ++
           composeScript "" "" (Units (Spec provisionMemory)) ++ LF ++ boundary).
Proof.
  split.
  - split; [reflexivity|].
    assert (Ht : OSType (Spec provisionFoo) <> OSTypeMemoryOneGardenLinux plain)
      by (vm_compute; discriminate).
    split; [exact Ht|].
    destruct (@provision_output_shape unit plain scripts theActuator provisionFoo ""
                eq_refl eq_refl) as [Hplain _].
    destruct (Hplain Ht) as (_ & _ & Hshebang & Hboundary).
    split; [exact Hshebang|]. rewrite Hboundary. reflexivity.
  - split; [reflexivity|]. split; [reflexivity|].
    destruct (@provision_output_shape unit (decodesTo memory4G) scripts theActuator
                provisionMemory "" eq_refl eq_refl) as [_ Hmemory].
    destruct (Hmemory eq_refl (Some memory4G) eq_refl) as (_ & Hfirst & Hshape).
    split; [exact Hfirst|].
    exists (String.concat LF
              [envelopeFirstLine; "MIME-Version: 1.0"; boundary;
               "Content-Type: text/x-vsmp; section=vsmp"; "system_memory=4G"] ++ LF).
    exact Hshape.
Defined.

Lemma provision_unit_lines_witness :
  Purpose (Spec provisionFoo) = OperatingSystemConfigPurposeProvision /\
  userData (Reconcile plain scripts theActuator provisionFoo) =
  scriptHead "" "" ++
  "systemctl enable 'foo.service' && systemctl restart --no-block 'foo.service'" ++ LF.
Proof.
  split; [reflexivity|].
  destruct (@provision_unit_lines unit plain scripts theActuator provisionFoo eq_refl)
    as (Hlines & _ & Hplain & _).
  rewrite (Hplain "" eq_refl ltac:(vm_compute; discriminate)).
  exact (Hlines "").
Defined.

Lemma provision_errors_unchanged_witness :
  (Purpose (Spec provisionFoo) = OperatingSystemConfigPurposeProvision /\
   Reconcile renderFails scripts theActuator provisionFoo =
   {| userData := ""; extensionUnits := []; extensionFiles := [];
      inPlaceUpdateConfig := None; err := Some "secret not found" |}) /\
  (Purpose (Spec provisionMemory) = OperatingSystemConfigPurposeProvision /\
   Reconcile decodeFails scripts theActuator provisionMemory =
   {| userData := ""; extensionUnits := []; extensionFiles := [];
      inPlaceUpdateConfig := None;
      err := Some "failed to decode provider config" |}).
Proof.
  split; (split; [reflexivity|]).
  - destruct (@provision_errors_unchanged unit renderFails scripts theActuator
                provisionFoo eq_refl) as (Hrender & _ & _).
    exact (Hrender "" "secret not found" eq_refl).
  - destruct (@provision_errors_unchanged unit decodeFails scripts theActuator
                provisionMemory eq_refl) as (_ & Hdecode & _).
    exact (Hdecode "" None "failed to decode provider config" eq_refl eq_refl eq_refl).
Defined.

(** The envelope of a request without system memory has a
    [system_memory=] line when the topology value, or a unit name, brings
    one along. *)
Lemma memory_envelope_foreign_key_line :
  (Purpose (Spec provisionMemory) = OperatingSystemConfigPurposeProvision /\
   OSType (Spec provisionMemory) = OSTypeMemoryOneGardenLinux (decodesTo topologyOnTwoLines) /\
   Configuration (decodesTo topologyOnTwoLines) provisionMemory =
     (Some topologyOnTwoLines, None) /\
   SystemMemory topologyOnTwoLines = None /\
   linesWith "system_memory="
     (userData (Reconcile (decodesTo topologyOnTwoLines) scripts theActuator
                  provisionMemory)) = ["system_memory=8G"] /\
   ~ keyLinesAre "system_memory="
       (configField SystemMemory (Some topologyOnTwoLines))
       (userData (Reconcile (decodesTo topologyOnTwoLines) scripts theActuator
                    provisionMemory))) /\
  (Purpose (Spec provisionTwoLineUnit) = OperatingSystemConfigPurposeProvision /\
   OSType (Spec provisionTwoLineUnit) = OSTypeMemoryOneGardenLinux plain /\
   Configuration plain provisionTwoLineUnit = (None, None) /\
   linesWith "system_memory="
     (userData (Reconcile plain scripts theActuator provisionTwoLineUnit)) =
   ["system_memory=1' && systemctl restart --no-block 'x"; "system_memory=1'"] /\
   ~ keyLinesAre "system_memory=" (configField SystemMemory None)
       (userData (Reconcile plain scripts theActuator provisionTwoLineUnit))).
Proof.
  repeat split; try (vm_compute; reflexivity); vm_compute; discriminate.
Qed.

(** A Provision request that is not of the memory variant gets bytes
    that do not begin with [#!/bin/bash] when the file renderer fails, and
    bytes that hold the boundary line when a unit is named like it. *)
Lemma provision_output_without_shebang :
  (Purpose (Spec provisionFoo) = OperatingSystemConfigPurposeProvision /\
   OSType (Spec provisionFoo) <> OSTypeMemoryOneGardenLinux renderFails /\
   userData (Reconcile renderFails scripts theActuator provisionFoo) = "" /\
   hasPrefix "#!/bin/bash"
     (userData (Reconcile renderFails scripts theActuator provisionFoo)) = false) /\
  (Purpose (Spec provisionBoundaryUnit) = OperatingSystemConfigPurposeProvision /\
   OSType (Spec provisionBoundaryUnit) <> OSTypeMemoryOneGardenLinux plain /\
   err (Reconcile plain scripts theActuator provisionBoundaryUnit) = None /\
   contains boundary
     (userData (Reconcile plain scripts theActuator provisionBoundaryUnit)) = true).
Proof.
  repeat split; try (vm_compute; reflexivity); vm_compute; discriminate.
Qed.

End Instances.

(** ** Further properties of the entry points *)

Section EntryPoints.

Variable Client : Type.
Variable E : Imports Client.
Variable G : Scripts.

Lemma hasPrefix_not_empty (p s : string) :
  p <> "" -> hasPrefix p s = true -> s <> "".
Proof.
  intros Hp H Hs. subst s. rewrite (hasPrefix_nil_r Hp) in H. discriminate.
Qed.

Lemma composeScript_not_empty (f u : string) (units : list Unit) :
  composeScript f u units <> "".
Proof.
  apply (@hasPrefix_not_empty "#!/bin/bash"); [discriminate|].
  apply composeScript_shebang.
Qed.

Lemma envelope_first_line (config : option MemoryOneConfiguration) (input : string) :
  hasPrefix (envelopeFirstLine ++ LF) (String.concat LF (envelopePieces config input)) = true.
Proof.
  cbn [envelopePieces app]. rewrite concat_cons, <- append_assoc.
  apply hasPrefix_append.
Qed.

Lemma envelope_not_empty (config : option MemoryOneConfiguration) (input : string) :
  String.concat LF (envelopePieces config input) <> "".
Proof.
  apply (@hasPrefix_not_empty (envelopeFirstLine ++ LF)); [discriminate|].
  apply envelope_first_line.
Qed.

(** The outcome of [handleProvisionOSC], by cases on what the renderer and
    the decoder answer. *)
Lemma handleProvisionOSC_cases (a : actuator Client) (osc : OperatingSystemConfig) :
  let r := FilesToDiskScript E (client a) (Namespace osc) (Files (Spec osc)) in
  let script :=
    composeScript (fst r) (UnitsToDiskScript E (Units (Spec osc))) (Units (Spec osc)) in
  (exists e, snd r = Some e /\ handleProvisionOSC E a osc = ("", Some e)) \/
  (snd r = None /\ OSType (Spec osc) <> OSTypeMemoryOneGardenLinux E /\
   handleProvisionOSC E a osc = (script, None)) \/
  (snd r = None /\ OSType (Spec osc) = OSTypeMemoryOneGardenLinux E /\
   exists e, snd (Configuration E osc) = Some e /\
             handleProvisionOSC E a osc = ("", Some e)) \/
  (snd r = None /\ OSType (Spec osc) = OSTypeMemoryOneGardenLinux E /\
   snd (Configuration E osc) = None /\
   handleProvisionOSC E a osc =
   (String.concat LF (envelopePieces (fst (Configuration E osc)) script), None)).
Proof.
  intros r script. subst script.
  destruct r as [f [e|]] eqn:Hr; subst r; cbn [fst snd].
  - left. exists e. split; [reflexivity|].
    apply (@handleProvisionOSC_render_error Client E a osc f e Hr).
  - right. destruct (String.eqb_spec (OSType (Spec osc)) (OSTypeMemoryOneGardenLinux E))
      as [Ht|Ht].
    + right. rewrite (@handleProvisionOSC_memory Client E a osc f Hr Ht).
      destruct (Configuration E osc) as [config [e|]] eqn:Hc; cbn [fst snd].
      * left. split; [reflexivity|]. split; [exact Ht|]. exists e.
        split; [reflexivity|]. apply (@wrap_error Client E osc _ config e Hc).
      * right. split; [reflexivity|]. split; [exact Ht|]. split; [reflexivity|].
        apply (@wrap_ok Client E osc _ config Hc).
    + left. split; [reflexivity|]. split; [exact Ht|].
      apply (@handleProvisionOSC_plain Client E a osc f Hr Ht).
Qed.

(** X1. [Reconcile] returns a nil error exactly when the purpose is
    Reconcile, or the purpose is Provision, the file renderer succeeds and,
    if the OS type is the memory variant, the decoder succeeds as well. *)
Theorem Reconcile_succeeds_iff (a : actuator Client) (osc : OperatingSystemConfig) :
  err (Reconcile E G a osc) = None <->
  Purpose (Spec osc) = OperatingSystemConfigPurposeReconcile \/
  (Purpose (Spec osc) = OperatingSystemConfigPurposeProvision /\
   snd (FilesToDiskScript E (client a) (Namespace osc) (Files (Spec osc))) = None /\
   (OSType (Spec osc) = OSTypeMemoryOneGardenLinux E ->
    snd (Configuration E osc) = None)).
Proof.
  destruct (String.eqb_spec (Purpose (Spec osc)) OperatingSystemConfigPurposeProvision)
    as [Hp|Hp].
  - rewrite (@Reconcile_provision Client E G a osc Hp). cbn [err].
    assert (Hnr : Purpose (Spec osc) <> OperatingSystemConfigPurposeReconcile)
      by (rewrite Hp; discriminate).
    destruct (handleProvisionOSC_cases a osc)
      as [(e & Hr & ->) | [(Hr & Ht & ->) | [(Hr & Ht & e & Hc & ->) | (Hr & Ht & Hc & ->)]]];
      cbn [snd]; split.
    + discriminate.
    + intros [H | (_ & H & _)]; [contradiction | congruence].
    + intros _. right. split; [exact Hp|]. split; [exact Hr|]. intro; contradiction.
    + reflexivity.
    + discriminate.
    + intros [H | (_ & _ & H)]; [contradiction | specialize (H Ht); congruence].
    + intros _. right. split; [exact Hp|]. split; [exact Hr|]. intros _. exact Hc.
    + reflexivity.
  - destruct (String.eqb_spec (Purpose (Spec osc)) OperatingSystemConfigPurposeReconcile)
      as [Hr|Hr].
    + rewrite (@Reconcile_reconcile Client E G a osc Hr). cbn. split; [now left | reflexivity].
    + unfold Reconcile. rewrite (purpose_eqb_neq Hp), (purpose_eqb_neq Hr). cbn [err].
      split; [discriminate | intros [H | (H & _)]; contradiction].
Qed.

(** X2. A Provision request never gets units, files or an update
    configuration, whether it succeeds or not, and a request of any other
    purpose never gets script bytes. *)
Theorem Reconcile_script_or_artifacts (a : actuator Client) (osc : OperatingSystemConfig) :
  (Purpose (Spec osc) = OperatingSystemConfigPurposeProvision ->
   extensionUnits (Reconcile E G a osc) = [] /\
   extensionFiles (Reconcile E G a osc) = [] /\
   inPlaceUpdateConfig (Reconcile E G a osc) = None) /\
  (Purpose (Spec osc) <> OperatingSystemConfigPurposeProvision ->
   userData (Reconcile E G a osc) = "").
Proof.
  split.
  - intro Hp. rewrite (@Reconcile_provision Client E G a osc Hp). repeat split.
  - intro Hp. unfold Reconcile. rewrite (purpose_eqb_neq Hp).
    destruct (String.eqb (Purpose (Spec osc)) OperatingSystemConfigPurposeReconcile);
      reflexivity.
Qed.

(** X3. On a Provision request the returned script is empty exactly when
    an error is returned. *)
Theorem provision_script_empty_iff_error (a : actuator Client) (osc : OperatingSystemConfig) :
  Purpose (Spec osc) = OperatingSystemConfigPurposeProvision ->
  (userData (Reconcile E G a osc) = "" <-> err (Reconcile E G a osc) <> None).
Proof.
  intro Hp. rewrite (@Reconcile_provision Client E G a osc Hp). cbn [userData err].
  destruct (handleProvisionOSC_cases a osc)
    as [(e & _ & ->) | [(_ & _ & ->) | [(_ & _ & e & _ & ->) | (_ & _ & _ & ->)]]];
    cbn [fst snd]; split; try congruence; try reflexivity; intro H.
  - now apply composeScript_not_empty in H.
  - now apply envelope_not_empty in H.
Qed.

(** X4. The client of the actuator is used for nothing but the rendering
    of the files of a Provision request: two actuators, such as those
    built by [NewActuator] from two managers, return the same on a request
    of another purpose, and the same on a Provision request for which the
    renderer answers the same on both clients. *)
Theorem Reconcile_uses_client_for_rendering_only
    (m1 m2 : Manager Client) (osc : OperatingSystemConfig) :
  (Purpose (Spec osc) <> OperatingSystemConfigPurposeProvision \/
   FilesToDiskScript E (GetClient m1) (Namespace osc) (Files (Spec osc)) =
   FilesToDiskScript E (GetClient m2) (Namespace osc) (Files (Spec osc))) ->
  Reconcile E G (NewActuator m1) osc = Reconcile E G (NewActuator m2) osc.
Proof.
  intros [Hp | Hf].
  - unfold Reconcile. rewrite (purpose_eqb_neq Hp). reflexivity.
  - unfold Reconcile, handleProvisionOSC, NewActuator. cbn [client].
    rewrite Hf. reflexivity.
Qed.

End EntryPoints.

(** ** Further properties of the asset set and of the artifacts *)

Section Artifacts.

Variable Client : Type.
Variable E : Imports Client.
Variable G : Scripts.

(** X5. [init] fills the package variables exactly when the four reads
    succeed, each variable with the content of its own asset; it panics
    exactly when one of the four reads fails. *)
Theorem init_succeeds_iff (S : Scripts) :
  (init E = Some S <->
   snd (ReadFile E (Join E "scripts" "inplace-update.sh")) = None /\
   snd (ReadFile E (Join E "scripts" "g_functions.sh")) = None /\
   snd (ReadFile E (Join E "scripts" "kubelet_cgroup_driver.sh")) = None /\
   snd (ReadFile E (Join E "scripts" "containerd_cgroup_driver.sh")) = None /\
   S = {| scriptContentInPlaceUpdate :=
            fst (ReadFile E (Join E "scripts" "inplace-update.sh"));
          scriptContentGFunctions :=
            fst (ReadFile E (Join E "scripts" "g_functions.sh"));
          scriptContentKubeletCGroupDriver :=
            fst (ReadFile E (Join E "scripts" "kubelet_cgroup_driver.sh"));
          scriptContentContainerdCGroupDriver :=
            fst (ReadFile E (Join E "scripts" "containerd_cgroup_driver.sh")) |}) /\
  (init E = None <->
   exists name, In name assetNames /\
                snd (ReadFile E (Join E "scripts" name)) <> None).
Proof.
  unfold init, Must.
  destruct (snd (ReadFile E (Join E "scripts" "inplace-update.sh"))) as [e1|] eqn:H1;
  [|destruct (snd (ReadFile E (Join E "scripts" "g_functions.sh"))) as [e2|] eqn:H2;
    [|destruct (snd (ReadFile E (Join E "scripts" "kubelet_cgroup_driver.sh")))
        as [e3|] eqn:H3;
      [|destruct (snd (ReadFile E (Join E "scripts" "containerd_cgroup_driver.sh")))
          as [e4|] eqn:H4]]].
  - split; split; try discriminate; try (intros (H & _); discriminate);
      try (intros; reflexivity).
    intros _. exists "inplace-update.sh". split; [cbn; tauto | congruence].
  - split; split; try discriminate; try (intros (_ & H & _); discriminate);
      try (intros; reflexivity).
    intros _. exists "g_functions.sh". split; [cbn; tauto | congruence].
  - split; split; try discriminate; try (intros (_ & _ & H & _); discriminate);
      try (intros; reflexivity).
    intros _. exists "kubelet_cgroup_driver.sh". split; [cbn; tauto | congruence].
  - split; split; try discriminate; try (intros (_ & _ & _ & H & _); discriminate);
      try (intros; reflexivity).
    intros _. exists "containerd_cgroup_driver.sh". split; [cbn; tauto | congruence].
  - split; split.
    + intro H. injection H as <-. repeat split.
    + intros (_ & _ & _ & _ & ->). reflexivity.
    + discriminate.
    + intros (name & Hin & Hne). exfalso.
      cbn in Hin. destruct Hin as [<- | [<- | [<- | [<- | []]]]]; congruence.
Qed.

(** X6. When [init] has filled the package variables, every file of the
    result of a Reconcile request lies under the script location with the
    name of one of the four assets and holds the content that was read for
    the asset of that very name. *)
Theorem emitted_files_hold_their_assets (S : Scripts)
    (a : actuator Client) (osc : OperatingSystemConfig) :
  init E = Some S ->
  Purpose (Spec osc) = OperatingSystemConfigPurposeReconcile ->
  forall file, In file (extensionFiles (Reconcile E S a osc)) ->
  exists name,
    In name assetNames /\
    Path file = Join E (ScriptLocation E) name /\
    ReadFile E (Join E "scripts" name) =
      (Deref (option_map Data (Inline (Content file))) "", None) /\
    Inline (Content file) <> None.
Proof.
  intros Hi Hp file Hin.
  unfold init, Must in Hi.
  destruct (ReadFile E (Join E "scripts" "inplace-update.sh")) as [c1 [e1|]] eqn:R1;
    cbn [fst snd] in Hi; [discriminate|].
  destruct (ReadFile E (Join E "scripts" "g_functions.sh")) as [c2 [e2|]] eqn:R2;
    cbn [fst snd] in Hi; [discriminate|].
  destruct (ReadFile E (Join E "scripts" "kubelet_cgroup_driver.sh")) as [c3 [e3|]] eqn:R3;
    cbn [fst snd] in Hi; [discriminate|].
  destruct (ReadFile E (Join E "scripts" "containerd_cgroup_driver.sh")) as [c4 [e4|]] eqn:R4;
    cbn [fst snd] in Hi; [discriminate|].
  injection Hi as <-.
  rewrite (@Reconcile_reconcile Client E _ a osc Hp) in Hin. cbn in Hin.
  destruct Hin as [<- | [<- | [<- | [<- | []]]]].
  - exists "inplace-update.sh". rewrite R1. cbn.
    split; [tauto|]. split; [reflexivity|]. split; [reflexivity | discriminate].
  - exists "g_functions.sh". rewrite R2. cbn.
    split; [tauto|]. split; [reflexivity|]. split; [reflexivity | discriminate].
  - exists "kubelet_cgroup_driver.sh". rewrite R3. cbn.
    split; [tauto|]. split; [reflexivity|]. split; [reflexivity | discriminate].
  - exists "containerd_cgroup_driver.sh". rewrite R4. cbn.
    split; [tauto|]. split; [reflexivity|]. split; [reflexivity | discriminate].
Qed.

(** X7. Every file of the result of a Reconcile request carries the script
    permissions, has inline content without an encoding, and refers to
    no secret. *)
Theorem emitted_files_are_inline_scripts (a : actuator Client) (osc : OperatingSystemConfig) :
  Purpose (Spec osc) = OperatingSystemConfigPurposeReconcile ->
  forall file, In file (extensionFiles (Reconcile E G a osc)) ->
  Permissions file = Some (ScriptPermissions E) /\
  SecretRef (Content file) = None /\
  exists data, Inline (Content file) = Some {| Encoding := ""; Data := data |}.
Proof.
  intros Hp file Hin.
  rewrite (@Reconcile_reconcile Client E G a osc Hp) in Hin. cbn in Hin.
  destruct Hin as [<- | [<- | [<- | [<- | []]]]]; cbn;
    (split; [reflexivity|]; split; [reflexivity|]; eexists; reflexivity).
Qed.

(** X8. Every unit of the result of a Reconcile request has no command, no
    enable flag and no content of its own, depends on exactly two files,
    the helper script and its own script, and has exactly one drop-in,
    whose content is the [Service] section with the single line
    [ExecStartPre=<own script>]; the own script is a file of the result. *)
Theorem emitted_units_run_their_script (a : actuator Client) (osc : OperatingSystemConfig) :
  Purpose (Spec osc) = OperatingSystemConfigPurposeReconcile ->
  forall unit, In unit (extensionUnits (Reconcile E G a osc)) ->
  Command unit = None /\ Enable unit = None /\ UnitContent unit = None /\
  exists own,
    FilePaths unit = [Join E (ScriptLocation E) "g_functions.sh"; own] /\
    DropIns unit =
      [{| DropInName := "10-configure-cgroup-driver.conf";
          DropInContent := "[Service]" ++ LF ++ "ExecStartPre=" ++ own ++ LF |}] /\
    In own (map Path (extensionFiles (Reconcile E G a osc))).
Proof.
  intros Hp unit Hin.
  rewrite (@Reconcile_reconcile Client E G a osc Hp) in *. cbn in *.
  destruct Hin as [<- | [<- | []]]; cbn;
    (split; [reflexivity|]; split; [reflexivity|]; split; [reflexivity|];
     eexists; split; [reflexivity|]; split; [reflexivity|]; tauto).
Qed.

(** X9. No file of the result of a Reconcile request is left unused: its
    path is the command of the update configuration or among the file
    paths of a unit of the result. *)
Theorem emitted_files_are_all_used (a : actuator Client) (osc : OperatingSystemConfig) :
  Purpose (Spec osc) = OperatingSystemConfigPurposeReconcile ->
  forall file, In file (extensionFiles (Reconcile E G a osc)) ->
  (exists cfg, inPlaceUpdateConfig (Reconcile E G a osc) = Some cfg /\
               OSUpdateCommand cfg = Some (Path file)) \/
  (exists unit, In unit (extensionUnits (Reconcile E G a osc)) /\
                In (Path file) (FilePaths unit)).
Proof.
  intros Hp file Hin.
  rewrite (@Reconcile_reconcile Client E G a osc Hp) in *. cbn in *.
  destruct Hin as [<- | [<- | [<- | [<- | []]]]]; cbn.
  - left. eexists. split; reflexivity.
  - right. eexists. split; [left; reflexivity|]. cbn. tauto.
  - right. eexists. split; [left; reflexivity|]. cbn. tauto.
  - right. eexists. split; [right; left; reflexivity|]. cbn. tauto.
Qed.

(** X10. The unit names of the result of a Reconcile request are pairwise
    distinct, and so are the file paths when joining the script location
    with two different asset names gives two different paths. *)
Theorem emitted_names_and_paths_are_unique (a : actuator Client) (osc : OperatingSystemConfig) :
  Purpose (Spec osc) = OperatingSystemConfigPurposeReconcile ->
  (forall n1 n2, In n1 assetNames -> In n2 assetNames ->
                 Join E (ScriptLocation E) n1 = Join E (ScriptLocation E) n2 -> n1 = n2) ->
  NoDup (map Name (extensionUnits (Reconcile E G a osc))) /\
  NoDup (map Path (extensionFiles (Reconcile E G a osc))).
Proof.
  intros Hp Hinj.
  rewrite (@Reconcile_reconcile Client E G a osc Hp). cbn. split.
  - repeat constructor; cbn; intuition discriminate.
  - repeat constructor; cbn;
      intros H; repeat destruct H as [H | H]; try contradiction;
      apply Hinj in H; try discriminate; cbn; tauto.
Qed.

End Artifacts.

(** ** Further properties of the provisioning script and of the envelope *)

Section Texts.

Variable Client : Type.
Variable E : Imports Client.

Lemma length_append (a b : string) :
  String.length (a ++ b) = String.length a + String.length b.
Proof. induction a as [|c a IH]; cbn; [reflexivity | now rewrite IH]. Qed.

Lemma append_cancel_l (p s t : string) : p ++ s = p ++ t -> s = t.
Proof.
  induction p as [|c p IH]; cbn; intro H; [exact H|].
  injection H as H. exact (IH H).
Qed.

Lemma append_cancel_r (s t q : string) : s ++ q = t ++ q -> s = t.
Proof.
  revert t. induction s as [|c s IH]; intros [|d t] H.
  - reflexivity.
  - apply (f_equal String.length) in H. cbn in H.
    rewrite length_append in H. lia.
  - apply (f_equal String.length) in H. cbn in H.
    rewrite length_append in H. lia.
  - cbn in H. injection H as -> H. now rewrite (IH t H).
Qed.

Lemma unitLine_one_line (name : string) :
  occurs "010" name = false -> lines (unitLine name) = [unitLine name].
Proof.
  intro H. apply lines_single. unfold unitLine.
  rewrite !occurs_append, H. reflexivity.
Qed.

Lemma unit_lines_one_each (units : list Unit) :
  (forall unit, In unit units -> occurs "010" (Name unit) = false) ->
  flat_map lines (map (fun unit => unitLine (Name unit)) units) =
  map (fun unit => unitLine (Name unit)) units.
Proof.
  intro Hn. induction units as [|unit units IH]; [reflexivity|].
  cbn [map flat_map]. rewrite IH by (intros; apply Hn; now right).
  rewrite unitLine_one_line by (apply Hn; now left). reflexivity.
Qed.


(** X12. When no unit name holds a line feed, the lines of the composed
    script are the fourteen lines before the fragments, the lines of the
    file fragment, the lines of the unit fragment, the seven lines after
    them, one line per unit in the order of the request, and the empty
    line that ends the text. *)
Theorem composeScript_lines (f u : string) (units : list Unit) :
  (forall unit, In unit units -> occurs "010" (Name unit) = false) ->
  lines (composeScript f u units) =
    (firstn 14 (scriptHeadPieces f u) ++ lines f ++ lines u ++
     skipn 16 (scriptHeadPieces f u) ++
     map (fun unit => unitLine (Name unit)) units ++ [""])%list /\
  List.length (lines (composeScript f u units)) =
    22 + List.length (lines f) + List.length (lines u) + List.length units.
Proof.
  intro Hn.
  assert (H : lines (composeScript f u units) =
    (firstn 14 (scriptHeadPieces f u) ++ lines f ++ lines u ++
     skipn 16 (scriptHeadPieces f u) ++
     map (fun unit => unitLine (Name unit)) units ++ [""])%list).
  { rewrite composeScript_pieces, lines_concat by discriminate.
    rewrite !flat_map_app, (unit_lines_one_each units Hn).
    cbn [scriptHeadPieces flat_map firstn skipn].
    repeat match goal with
    | |- context [lines ?s] =>
        lazymatch s with
        | f => fail
        | u => fail
        | _ => rewrite (@lines_single s eq_refl)
        end
    end.
    cbn [app]. rewrite <- !app_assoc. reflexivity. }
  split; [exact H|]. rewrite H.
  cbn [scriptHeadPieces firstn skipn]. rewrite !length_app, length_map. cbn [List.length].
  lia.
Qed.

(** X13. When the present configuration values hold no line feed, the
    lines of the envelope are the four header lines, the [system_memory=]
    line if any, then the [mem_topology=] line if any, the boundary line,
    the shell-script content type, the lines of the wrapped text and the
    closing boundary line; so the envelope has three boundary lines more
    than the wrapped text. *)
Theorem envelope_lines (osc : OperatingSystemConfig) (input : string)
    (config : option MemoryOneConfiguration) :
  Configuration E osc = (config, None) ->
  (forall v, configField SystemMemory config = Some v -> occurs "010" v = false) ->
  (forall v, configField MemoryTopology config = Some v -> occurs "010" v = false) ->
  let out := fst (wrapIntoMemoryOneHeaderAndFooter E osc input) in
  lines out =
    ([envelopeFirstLine; "MIME-Version: 1.0"; boundary;
      "Content-Type: text/x-vsmp; section=vsmp"] ++
     keyLine "system_memory=" (configField SystemMemory config) ++
     keyLine "mem_topology=" (configField MemoryTopology config) ++
     [boundary; "Content-Type: text/x-shellscript"] ++
     lines input ++ [boundary])%list /\
  List.length (filter (String.eqb boundary) (lines out)) =
    3 + List.length (filter (String.eqb boundary) (lines input)).
Proof.
  intros Hc Hsm Hmt out. subst out.
  rewrite (@wrap_ok Client E osc input config Hc). cbn [fst].
  assert (Hk : forall key value,
             occurs "010" key = false ->
             (forall v, value = Some v -> occurs "010" v = false) ->
             flat_map lines (keyLine key value) = keyLine key value).
  { intros key [v|] Hkey Hv; [|reflexivity]. cbn [keyLine flat_map].
    rewrite lines_single by (now rewrite occurs_append, Hkey, (Hv v eq_refl)).
    reflexivity. }
  assert (H : lines (String.concat LF (envelopePieces config input)) =
    ([envelopeFirstLine; "MIME-Version: 1.0"; boundary;
      "Content-Type: text/x-vsmp; section=vsmp"] ++
     keyLine "system_memory=" (configField SystemMemory config) ++
     keyLine "mem_topology=" (configField MemoryTopology config) ++
     [boundary; "Content-Type: text/x-shellscript"] ++
     lines input ++ [boundary])%list).
  { rewrite lines_concat by discriminate. unfold envelopePieces.
    rewrite !flat_map_app, (Hk "system_memory=" _ eq_refl Hsm),
      (Hk "mem_topology=" _ eq_refl Hmt).
    reflexivity. }
  split; [exact H|]. rewrite H, !filter_app, !length_app.
  assert (Hb : forall key value,
             (forall v, String.eqb boundary (key ++ v) = false) ->
             filter (String.eqb boundary) (keyLine key value) = []).
  { intros key [v|] Hkey; [|reflexivity]. cbn [keyLine filter]. now rewrite Hkey. }
  rewrite (Hb "system_memory=" _ (fun v => eq_refl)).
  rewrite (Hb "mem_topology=" _ (fun v => eq_refl)).
  cbn. lia.
Qed.

(** X14. The wrapped text can be told from the envelope: under one
    decoded configuration, two texts with the same envelope are the same
    text. *)
Theorem envelope_determines_script (osc : OperatingSystemConfig) (input1 input2 : string)
    (config : option MemoryOneConfiguration) :
  Configuration E osc = (config, None) ->
  wrapIntoMemoryOneHeaderAndFooter E osc input1 =
  wrapIntoMemoryOneHeaderAndFooter E osc input2 ->
  input1 = input2.
Proof.
  intros Hc H.
  rewrite (@wrap_ok Client E osc input1 config Hc) in H.
  rewrite (@wrap_ok Client E osc input2 config Hc) in H.
  assert (Hsplit : exists before, before <> [] /\
            forall input,
              envelopePieces config input = (before ++ [input; boundary])%list).
  { exists ([envelopeFirstLine; "MIME-Version: 1.0"; boundary;
             "Content-Type: text/x-vsmp; section=vsmp"] ++
            keyLine "system_memory=" (configField SystemMemory config) ++
            keyLine "mem_topology=" (configField MemoryTopology config) ++
            [boundary; "Content-Type: text/x-shellscript"])%list.
    split; [discriminate|].
    intro input. unfold envelopePieces. rewrite <- !app_assoc. reflexivity. }
  destruct Hsplit as (before & Hne & Hsplit).
  rewrite !Hsplit in H.
  rewrite (@concat_app before [input1; boundary] Hne) in H by discriminate.
  rewrite (@concat_app before [input2; boundary] Hne) in H by discriminate.
  apply (f_equal fst) in H. cbn [fst] in H.
  apply append_cancel_l in H. apply append_cancel_l in H.
  cbn [String.concat] in H. now apply append_cancel_r in H.
Qed.

(** X15. A nil configuration and a configuration without fields give the
    same envelope, the one with an empty key/value part. *)
Theorem envelope_without_fields (osc : OperatingSystemConfig) (input : string)
    (config : option MemoryOneConfiguration) :
  Configuration E osc = (config, None) ->
  configField SystemMemory config = None ->
  configField MemoryTopology config = None ->
  wrapIntoMemoryOneHeaderAndFooter E osc input =
  (envelopeFirstLine ++ LF ++
   "MIME-Version: 1.0" ++ LF ++
   boundary ++ LF ++
   "Content-Type: text/x-vsmp; section=vsmp" ++ LF ++
   boundary ++ LF ++
   "Content-Type: text/x-shellscript" ++ LF ++
   input ++ LF ++
   boundary, None).
Proof.
  intros Hc Hsm Hmt. rewrite (@wrap_ok Client E osc input config Hc).
  unfold envelopePieces. rewrite Hsm, Hmt. reflexivity.
Qed.

End Texts.

(** ** Properties of the in-place-update script *)

Section UpdateScript.

Import InplaceUpdate.

Variable Client : Type.
Variable E : Imports Client.
Variable G : Scripts.

Lemma one_argument (args : list string) :
  Nat.eqb (List.length args) 1 = true <-> exists v, args = [v].
Proof.
  destruct args as [|v [|w args]]; cbn; split; try discriminate.
  - intros (v & H). discriminate.
  - intros _. now exists v.
  - reflexivity.
  - intros (x & H). discriminate.
Qed.

(** X16. The script reboots only after an update that succeeded: the
    reboot is among the executed commands exactly when there is exactly
    one argument and the update to that version exits with status 0; and
    the update is run for no other version than the single argument. *)
Theorem script_reboots_iff (run : Command -> N) (name : string) (args : list string) :
  (In SudoReboot (executed (script run name args)) <->
   exists v, args = [v] /\ run (SudoGardenlinuxUpdate v) = 0%N) /\
  (forall v, In (SudoGardenlinuxUpdate v) (executed (script run name args)) <->
             args = [v]).
Proof.
  unfold script.
  destruct args as [|v [|w args]]; cbn [List.length Nat.eqb negb hd].
  - destruct (N.eqb (run (Echo ("Usage: " ++ name ++ " <version>"))) 0); cbn;
      (split; [split; [intros [H|[]]; discriminate | intros (v & H & _); discriminate]
              | intro v; split; [intros [H|[]]; discriminate | discriminate]]).
  - destruct (N.eqb_spec (run (SudoGardenlinuxUpdate v)) 0) as [H0|H0]; cbn; split.
    + split; [intros _; now exists v | tauto].
    + intro x. split; [intros [H|[H|[]]]; congruence | intro H; left; congruence].
    + split; [intros [H|[]]; discriminate | intros (x & Hx & Hr); congruence].
    + intro x. split; [intros [H|[]]; congruence | intro H; left; congruence].
  - destruct (N.eqb (run (Echo ("Usage: " ++ name ++ " <version>"))) 0); cbn;
      (split; [split; [intros [H|[]]; discriminate | intros (x & H & _); discriminate]
              | intro x; split; [intros [H|[]]; discriminate | discriminate]]).
Qed.

(** X17. Called with no argument or with more than one, the script only
    prints its usage line and exits with a status other than 0; called
    with one argument it prints nothing, and it exits with status 0
    exactly when both the update and the reboot do. *)
Theorem script_exit_status (run : Command -> N) (name : string) (args : list string) :
  (List.length args <> 1 ->
   executed (script run name args) = [Echo ("Usage: " ++ name ++ " <version>")] /\
   exitStatus (script run name args) <> 0%N) /\
  (forall v, args = [v] ->
   (forall text, ~ In (Echo text) (executed (script run name args))) /\
   (exitStatus (script run name args) = 0%N <->
    run (SudoGardenlinuxUpdate v) = 0%N /\ run SudoReboot = 0%N)).
Proof.
  split.
  - intro Hlen. unfold script.
    assert (Hb : Nat.eqb (List.length args) 1 = false) by now apply Nat.eqb_neq.
    rewrite Hb. cbn [negb].
    destruct (N.eqb_spec (run (Echo ("Usage: " ++ name ++ " <version>"))) 0) as [H0|H0];
      cbn; split; try reflexivity; [discriminate | exact H0].
  - intros v ->. unfold script. cbn [List.length Nat.eqb negb hd].
    destruct (N.eqb_spec (run (SudoGardenlinuxUpdate v)) 0) as [H0|H0]; cbn; split.
    + intros text [H|[H|[]]]; discriminate.
    + split; [intro H; now split | tauto].
    + intros text [H|[]]; discriminate.
    + split; [intro H; contradiction | intros [H _]; contradiction].
Qed.

(** X18. Run with the arguments of the update configuration of a Reconcile
    request, the script never prints its usage line: it runs the update to
    the OS version of the request, or to the empty version when the
    request names none, and reboots if that update succeeds. *)
Theorem script_on_update_config (run : Command -> N) (name : string)
    (a : actuator Client) (osc : OperatingSystemConfig) :
  Purpose (Spec osc) = OperatingSystemConfigPurposeReconcile ->
  exists cfg,
    inPlaceUpdateConfig (Reconcile E G a osc) = Some cfg /\
    let version := Deref (OSVersion (Spec osc)) "" in
    executed (script run name (OSUpdateCommandArgs cfg)) =
      if N.eqb (run (SudoGardenlinuxUpdate version)) 0
      then [SudoGardenlinuxUpdate version; SudoReboot]
      else [SudoGardenlinuxUpdate version].
Proof.
  intro Hp. rewrite (@Reconcile_reconcile Client E G a osc Hp). cbn.
  eexists. split; [reflexivity|]. cbn. unfold script. cbn [List.length Nat.eqb negb hd].
  destruct (N.eqb (run (SudoGardenlinuxUpdate (Deref (OSVersion (Spec osc)) ""))) 0);
    reflexivity.
Qed.

End UpdateScript.

(** ** The further properties on concrete inputs *)

Section MoreInstances.

Import Example Sample.

Lemma Reconcile_succeeds_iff_witness :
  err (Reconcile plain scripts theActuator provisionFoo) = None /\
  err (Reconcile decodeFails scripts theActuator provisionMemory) <> None.
Proof.
  split.
  - apply (proj2 (@Reconcile_succeeds_iff unit plain scripts theActuator provisionFoo)).
    right. split; [reflexivity|]. split; [reflexivity|]. intro H. discriminate H.
  - intro H.
    apply (proj1 (@Reconcile_succeeds_iff unit decodeFails scripts theActuator
                    provisionMemory)) in H.
    destruct H as [H | (_ & _ & H)]; [discriminate H|].
    specialize (H eq_refl). discriminate H.
Defined.

Lemma Reconcile_script_or_artifacts_witness :
  (Purpose (Spec provisionFoo) = OperatingSystemConfigPurposeProvision /\
   extensionUnits (Reconcile plain scripts theActuator provisionFoo) = [] /\
   extensionFiles (Reconcile plain scripts theActuator provisionFoo) = [] /\
   inPlaceUpdateConfig (Reconcile plain scripts theActuator provisionFoo) = None) /\
  (Purpose (Spec reconcile1312) <> OperatingSystemConfigPurposeProvision /\
   userData (Reconcile plain scripts theActuator reconcile1312) = "").
Proof.
  split.
  - split; [reflexivity|].
    exact (proj1 (@Reconcile_script_or_artifacts unit plain scripts theActuator
                    provisionFoo) eq_refl).
  - assert (H : Purpose (Spec reconcile1312) <> OperatingSystemConfigPurposeProvision)
      by (vm_compute; discriminate).
    split; [exact H|].
    exact (proj2 (@Reconcile_script_or_artifacts unit plain scripts theActuator
                    reconcile1312) H).
Defined.

Lemma provision_script_empty_iff_error_witness :
  Purpose (Spec provisionFoo) = OperatingSystemConfigPurposeProvision /\
  (userData (Reconcile renderFails scripts theActuator provisionFoo) = "" <->
   err (Reconcile renderFails scripts theActuator provisionFoo) <> None) /\
  userData (Reconcile plain scripts theActuator provisionFoo) <> "".
Proof.
  split; [reflexivity|]. split.
  - exact (@provision_script_empty_iff_error unit renderFails scripts theActuator
             provisionFoo eq_refl).
  - intro H.
    apply (proj1 (@provision_script_empty_iff_error unit plain scripts theActuator
                    provisionFoo eq_refl)) in H.
    apply H. reflexivity.
Defined.

Lemma Reconcile_uses_client_for_rendering_only_witness :
  GetClient (managerOf 1) <> GetClient (managerOf 2) /\
  FilesToDiskScript byClient (GetClient (managerOf 1))
    (Namespace provisionFoo) (Files (Spec provisionFoo)) =
  FilesToDiskScript byClient (GetClient (managerOf 2))
    (Namespace provisionFoo) (Files (Spec provisionFoo)) /\
  Reconcile byClient scripts (NewActuator (managerOf 1)) provisionFoo =
  Reconcile byClient scripts (NewActuator (managerOf 2)) provisionFoo.
Proof.
  split; [discriminate|]. split; [reflexivity|].
  exact (@Reconcile_uses_client_for_rendering_only nat byClient scripts
           (managerOf 1) (managerOf 2) provisionFoo (or_intror eq_refl)).
Defined.

Lemma init_succeeds_iff_witness : init plain = Some scripts.
Proof.
  apply (proj2 (proj1 (@init_succeeds_iff unit plain scripts))).
  repeat split.
Defined.

Lemma emitted_files_hold_their_assets_witness :
  init plain = Some scripts /\
  Purpose (Spec reconcile1312) = OperatingSystemConfigPurposeReconcile /\
  forall file, In file (extensionFiles (Reconcile plain scripts theActuator reconcile1312)) ->
  exists name,
    In name assetNames /\
    Path file = "/opt/gardener/bin/" ++ name /\
    assets ("scripts/" ++ name) =
      (Deref (option_map Data (Inline (Content file))) "", None) /\
    Inline (Content file) <> None.
Proof.
  split; [reflexivity|]. split; [reflexivity|].
  exact (@emitted_files_hold_their_assets unit plain scripts theActuator reconcile1312
           eq_refl eq_refl).
Defined.

Lemma emitted_files_are_inline_scripts_witness :
  Purpose (Spec reconcile1312) = OperatingSystemConfigPurposeReconcile /\
  forall file, In file (extensionFiles (Reconcile plain scripts theActuator reconcile1312)) ->
  Permissions file = Some 493%N /\
  SecretRef (Content file) = None /\
  exists data, Inline (Content file) = Some {| Encoding := ""; Data := data |}.
Proof.
  split; [reflexivity|].
  exact (@emitted_files_are_inline_scripts unit plain scripts theActuator reconcile1312
           eq_refl).
Defined.

Lemma emitted_units_run_their_script_witness :
  Purpose (Spec reconcile1312) = OperatingSystemConfigPurposeReconcile /\
  forall unit, In unit (extensionUnits (Reconcile plain scripts theActuator reconcile1312)) ->
  Command unit = None /\ Enable unit = None /\ UnitContent unit = None /\
  exists own,
    FilePaths unit = ["/opt/gardener/bin/g_functions.sh"; own] /\
    DropIns unit =
      [{| DropInName := "10-configure-cgroup-driver.conf";
          DropInContent := "[Service]" ++ LF ++ "ExecStartPre=" ++ own ++ LF |}] /\
    In own (map Path (extensionFiles (Reconcile plain scripts theActuator reconcile1312))).
Proof.
  split; [reflexivity|].
  exact (@emitted_units_run_their_script unit plain scripts theActuator reconcile1312
           eq_refl).
Defined.

Lemma emitted_files_are_all_used_witness :
  Purpose (Spec reconcile1312) = OperatingSystemConfigPurposeReconcile /\
  forall file, In file (extensionFiles (Reconcile plain scripts theActuator reconcile1312)) ->
  (exists cfg, inPlaceUpdateConfig (Reconcile plain scripts theActuator reconcile1312) =
               Some cfg /\
               OSUpdateCommand cfg = Some (Path file)) \/
  (exists unit, In unit (extensionUnits (Reconcile plain scripts theActuator reconcile1312)) /\
                In (Path file) (FilePaths unit)).
Proof.
  split; [reflexivity|].
  exact (@emitted_files_are_all_used unit plain scripts theActuator reconcile1312 eq_refl).
Defined.

Lemma emitted_names_and_paths_are_unique_witness :
  Purpose (Spec reconcile1312) = OperatingSystemConfigPurposeReconcile /\
  NoDup (map Name (extensionUnits (Reconcile plain scripts theActuator reconcile1312))) /\
  NoDup (map Path (extensionFiles (Reconcile plain scripts theActuator reconcile1312))).
Proof.
  split; [reflexivity|].
  apply (@emitted_names_and_paths_are_unique unit plain scripts theActuator reconcile1312
           eq_refl).
  intros n1 n2 H1 H2 H. cbn in H1, H2.
  destruct H1 as [<- | [<- | [<- | [<- | []]]]];
    destruct H2 as [<- | [<- | [<- | [<- | []]]]];
    try reflexivity; vm_compute in H; discriminate H.
Defined.

Lemma composeScript_lines_witness :
  (forall unit, In unit (Units (Spec provisionFoo)) -> occurs "010" (Name unit) = false) /\
  List.length (lines (composeScript "" "" (Units (Spec provisionFoo)))) = 25 /\
  nth 23 (lines (composeScript "" "" (Units (Spec provisionFoo)))) "" =
    "systemctl enable 'foo.service' && systemctl restart --no-block 'foo.service'".
Proof.
  assert (Hn : forall unit, In unit (Units (Spec provisionFoo)) ->
                            occurs "010" (Name unit) = false).
  { intros unit [<- | []]. reflexivity. }
  split; [exact Hn|].
  destruct (@composeScript_lines "" "" (Units (Spec provisionFoo)) Hn) as [Hl Hlen].
  split; [exact Hlen|]. rewrite Hl. reflexivity.
Defined.

Lemma envelope_lines_witness :
  Configuration (decodesTo memoryBoth) provisionMemory = (Some memoryBoth, None) /\
  lines (fst (wrapIntoMemoryOneHeaderAndFooter (decodesTo memoryBoth) provisionMemory
                ("#!/bin/bash" ++ LF))) =
    [envelopeFirstLine; "MIME-Version: 1.0"; boundary;
     "Content-Type: text/x-vsmp; section=vsmp";
     "system_memory=4G"; "mem_topology=2";
     boundary; "Content-Type: text/x-shellscript"; "#!/bin/bash"; ""; boundary].
Proof.
  split; [reflexivity|].
  refine (proj1 (@envelope_lines unit (decodesTo memoryBoth) provisionMemory
                   ("#!/bin/bash" ++ LF) (Some memoryBoth) eq_refl _ _)).
  - intros v H. injection H as <-. reflexivity.
  - intros v H. injection H as <-. reflexivity.
Defined.

Lemma envelope_determines_script_witness :
  Configuration (decodesTo memory4G) provisionMemory = (Some memory4G, None) /\
  wrapIntoMemoryOneHeaderAndFooter (decodesTo memory4G) provisionMemory "a" =
  wrapIntoMemoryOneHeaderAndFooter (decodesTo memory4G) provisionMemory ("" ++ "a") /\
  "a" = "" ++ "a".
Proof.
  split; [reflexivity|]. split; [reflexivity|].
  exact (@envelope_determines_script unit (decodesTo memory4G) provisionMemory
           "a" ("" ++ "a") (Some memory4G) eq_refl eq_refl).
Defined.

Lemma envelope_without_fields_witness :
  Configuration plain provisionMemory = (None, None) /\
  Configuration (decodesTo memoryNone) provisionMemory = (Some memoryNone, None) /\
  wrapIntoMemoryOneHeaderAndFooter plain provisionMemory "a" =
  wrapIntoMemoryOneHeaderAndFooter (decodesTo memoryNone) provisionMemory "a".
Proof.
  split; [reflexivity|]. split; [reflexivity|].
  rewrite (@envelope_without_fields unit plain provisionMemory "a" None
             eq_refl eq_refl eq_refl).
  rewrite (@envelope_without_fields unit (decodesTo memoryNone) provisionMemory "a"
             (Some memoryNone) eq_refl eq_refl eq_refl).
  reflexivity.
Defined.

Lemma script_reboots_iff_witness :
  In InplaceUpdate.SudoReboot (InplaceUpdate.executed (InplaceUpdate.script allSucceed "inplace-update.sh" ["1312.0"])) /\
  ~ In InplaceUpdate.SudoReboot (InplaceUpdate.executed (InplaceUpdate.script updateFails "inplace-update.sh" ["1312.0"])).
Proof.
  split.
  - apply (proj2 (proj1 (@script_reboots_iff allSucceed "inplace-update.sh" ["1312.0"]))).
    exists "1312.0". split; reflexivity.
  - intro H.
    apply (proj1 (proj1 (@script_reboots_iff updateFails "inplace-update.sh" ["1312.0"])))
      in H.
    destruct H as (v & _ & H). discriminate H.
Defined.

Lemma script_exit_status_witness :
  (List.length (@nil string) <> 1 /\
   InplaceUpdate.executed (InplaceUpdate.script allSucceed "inplace-update.sh" []) =
     [InplaceUpdate.Echo "Usage: inplace-update.sh <version>"] /\
   InplaceUpdate.exitStatus (InplaceUpdate.script allSucceed "inplace-update.sh" []) <> 0%N) /\
  InplaceUpdate.exitStatus (InplaceUpdate.script allSucceed "inplace-update.sh" ["1312.0"]) = 0%N.
Proof.
  split.
  - assert (H : List.length (@nil string) <> 1) by (cbn; lia).
    split; [exact H|].
    exact (proj1 (@script_exit_status allSucceed "inplace-update.sh" []) H).
  - destruct (proj2 (@script_exit_status allSucceed "inplace-update.sh" ["1312.0"])
                "1312.0" eq_refl) as [_ H].
    apply (proj2 H). split; reflexivity.
Defined.

Lemma script_on_update_config_witness :
  Purpose (Spec reconcileNoVersion) = OperatingSystemConfigPurposeReconcile /\
  OSVersion (Spec reconcileNoVersion) = None /\
  exists cfg,
    inPlaceUpdateConfig (Reconcile plain scripts theActuator reconcileNoVersion) = Some cfg /\
    InplaceUpdate.executed (InplaceUpdate.script updateFails "inplace-update.sh" (OSUpdateCommandArgs cfg)) =
      [InplaceUpdate.SudoGardenlinuxUpdate ""].
Proof.
  split; [reflexivity|]. split; [reflexivity|].
  exact (@script_on_update_config unit plain scripts updateFails "inplace-update.sh"
           theActuator reconcileNoVersion eq_refl).
Defined.

End MoreInstances.
